(** * simplecert: start-up path of the certificate manager

    A shallow embedding of [CheckConfig], [Init] and [loadStoredCert] of
    package [simplecert], and the properties of the start-up path.

    The package keeps its configuration behind a package-level pointer
    ([var c *Config]) that aliases the caller's [Config]; the embedding
    therefore has a heap of [Config] objects, a nullable pointer type and
    the two package-level variables [c] and [local] in its state.  Every
    call that leaves the two source files (file system, logger, ACME
    client, helpers of the package that live in other files, hooks of the
    host) is a field of [Env]; the embedding records each such call, with
    its arguments and its result, in the list of events a run produces. *)

From Stdlib Require Import ZArith List.
From Stdlib Require Import String Ascii.
From stdpp Require Import base option strings gmap.

Open Scope string_scope.
Open Scope Z_scope.

(** ** Errors *)

(** Go's [error] values that the package can return: the nine sentinel
    values declared in the [var] block, compared by identity, and the
    values built by [errors.New] at run time (also those the helpers and
    the libraries hand back). *)
Inductive error : Type :=
| errNoDirectoryURL
| errNoMail
| errNoDomains
| errNoChallenge
| errNoCacheDir
| errNoRenewBefore
| errNoCheckInterval
| errNoCacheDirPerm
| errUnsupportedKeyType
| errors_New (msg : string).

(** [err.Error()] *)
Definition Error (e : error) : string :=
  match e with
  | errNoDirectoryURL => "simplecert: no directory url specified in config"
  | errNoMail => "simplecert: no SSLEmail in config in config"
  | errNoDomains => "simplecert: no domains specified in config"
  | errNoChallenge => "simplecert: no challenge method specified in config"
  | errNoCacheDir => "simplecert: no cache directory specified in config"
  | errNoRenewBefore => "simplecert: no renew before value set in config"
  | errNoCheckInterval => "simplecert: no check interval set in config"
  | errNoCacheDirPerm => "simplecert: no cache directory permission specified in config"
  | errUnsupportedKeyType => "simplecert: unsupported key type specified in config"
  | errors_New msg => msg
  end.

(** ** Constants *)

Definition logFileName : string := "simplecert.log".
Definition certResourceFileName : string := "CertResource.json".
Definition certFileName : string := "cert.pem".
Definition keyFileName : string := "key.pem".

Definition EC256 : string := "P256".
Definition EC384 : string := "P384".
Definition RSA2048 : string := "2048".
Definition RSA4096 : string := "4096".
Definition RSA8192 : string := "8192".

(** [supportedKeyTypes]: a [map[string]bool]; a key that is absent reads
    as [false]. *)
Definition supportedKeyTypes : gmap string bool :=
  <[EC256 := true]> (<[EC384 := true]> (<[RSA2048 := true]>
    (<[RSA4096 := true]> (<[RSA8192 := true]> ∅)))).

Definition map_index (m : gmap string bool) (k : string) : bool :=
  default false (m !! k).

(** [time.Hour], in nanoseconds. *)
Definition time_Hour : Z := 3600 * 1000000000.

(** [os.O_WRONLY], [os.O_CREATE], [os.O_APPEND]; a set of flags joined
    by [|] is the list of its members. *)
Inductive OpenFlag : Type := O_WRONLY | O_CREATE | O_APPEND.

(** [certificate.ObtainRequest], the two fields [Init] sets. *)
Record ObtainRequest : Type := mkObtainRequest {
  request_Domains : list string;
  request_Bundle : bool
}.

(** Operands of [log.Println]. *)
Inductive LogArg : Type :=
| LStr (s : string)
| LStrs (l : list string)
| LErr (e : error).

(** Nullable pointers to [Config] objects. *)
Definition loc : Type := nat.
Definition ptr : Type := option loc.
Definition nil_ptr : ptr := None.

Section Simplecert.

(** What lies outside the package: [W] is the state of the file system,
    the network and the host service; the other types are the values
    the helpers and libraries pass around. *)
Context {W File CertReloader User Client Resource CR : Type}.

(** ** Config *)

Record Config : Type := mkConfig {
  RenewBefore : Z;
  CheckInterval : Z;
  SSLEmail : string;
  DirectoryURL : string;
  HTTPAddress : string;
  TLSAddress : string;
  CacheDirPerm : Z;
  Domains : list string;
  DNSServers : list string;
  CacheDir : string;
  DNSProvider : string;
  UpdateHosts : bool; Local : bool;
  KeyType : string;
  WillRenewCertificate : option (W -> W);
  DidRenewCertificate : option (W -> W);
  FailedToRenewCertificate : option (error -> W -> W)
}.

(** [c.CacheDir = dir] *)
Definition set_CacheDir (dir : string) (k : Config) : Config :=
  mkConfig (RenewBefore k) (CheckInterval k) (SSLEmail k) (DirectoryURL k)
    (HTTPAddress k) (TLSAddress k) (CacheDirPerm k) (Domains k)
    (DNSServers k) dir (DNSProvider k) (UpdateHosts k) (Local k)
    (KeyType k) (WillRenewCertificate k) (DidRenewCertificate k)
    (FailedToRenewCertificate k).

(** The object behind [Default]. *)
Definition Default_Config : Config :=
  {| RenewBefore := 30 * 24;
     CheckInterval := 2 * 24 * time_Hour;
     SSLEmail := "";
     DirectoryURL := "https://acme-v02.api.letsencrypt.org/directory";
     HTTPAddress := ":80";
     TLSAddress := ":443";
     CacheDirPerm := 448;
     Domains := [];
     CacheDir := "letsencrypt";
     DNSProvider := "";
     Local := false;
     UpdateHosts := true;
     DNSServers := [];
     KeyType := RSA2048;
     WillRenewCertificate := None;
     DidRenewCertificate := None;
     FailedToRenewCertificate := None |}.

(** ** Events *)

Inductive Event : Type :=
| EvLog (args : list LogArg)
| EvEnsureCacheDirExists (dir : string)
| EvOpenFile (name : string) (flag : list OpenFlag) (perm : Z)
    (res : File + error)
| EvLogSetOutput (logFile : File)
| EvCertCached (dir : string) (res : bool)
| EvDomainsChanged (certFilePath keyFilePath : string) (res : bool)
| EvCreateLocalCert (certFilePath keyFilePath : string)
| EvUpdateHosts
| EvNewCertReloader (certFilePath keyFilePath : string) (logFile : File)
    (res : option CertReloader * option error)
| EvGetUser (res : User + error)
| EvCreateClient (u : User) (dnsServers : list string) (res : Client + error)
| EvObtain (request : ObtainRequest) (res : Resource + error)
| EvSaveCertToDisk (cert : Resource) (cacheDir : string) (res : option error)
| EvReadFile (name : string) (res : list Byte.byte + error)
| EvUnmarshal (data : list Byte.byte) (res : CR + error)
| EvRenew (cert : Resource) (res : option error)
| EvFailedToRenewCertificate (err : error)
| EvGoRenewalRoutine (cert : Resource).

(** ** The environment *)

(** Everything [CheckConfig], [Init] and [loadStoredCert] call that is
    not in their two files: [filepath.Join], [os.OpenFile] and
    [os.ReadFile] of the standard library, [sonnet.Unmarshal], the
    [Certificate.Obtain] of the ACME client and the [Domain] field of its
    result, and the helpers of the package defined in its other files.
    A call acts on the world and yields its result. The helpers of the
    package take the [Config] the package-level [c] points to when they
    are called: they read it, they do not write it. *)
Record Env : Type := mkEnv {
  filepath_Join : string -> string -> string;
  os_OpenFile : string -> list OpenFlag -> Z -> W -> (File + error) * W;
  os_ReadFile : string -> W -> (list Byte.byte + error) * W;
  sonnet_Unmarshal : list Byte.byte -> CR + error;
  ensureCacheDirExists : Config -> string -> W -> W;
  certCached : Config -> string -> W -> bool * W;
  domainsChanged : Config -> string -> string -> W -> bool * W;
  createLocalCert : Config -> string -> string -> W -> W;
  updateHosts : Config -> W -> W;
  NewCertReloader : Config -> string -> string -> File -> option (W -> W) ->
                    W -> (option CertReloader * option error) * W;
  getUser : Config -> W -> (User + error) * W;
  createClient : Config -> User -> list string -> W -> (Client + error) * W;
  Certificate_Obtain : Client -> ObtainRequest -> W -> (Resource + error) * W;
  cert_Domain : Resource -> string;
  saveCertToDisk : Config -> Resource -> string -> W -> option error * W;
  getACMECertResource : CR -> Resource;
  renew : Config -> Resource -> W -> option error * W
}.

(** ** State and the monad of the package's functions *)

Record State : Type := mkState {
  heap : gmap loc Config;
  glob_c : ptr;
  glob_local : bool;
  world : W
}.

(** A run ends in a panic ([None]) or in a value, a state and the events
    it produced, oldest first. *)
Definition M (A : Type) : Type := State -> option (A * State * list Event).

Definition ret {A} (a : A) : M A := fun s => Some (a, s, []).

Definition bind {A B} (m : M A) (f : A -> M B) : M B :=
  fun s =>
    match m s with
    | None => None
    | Some (a, s1, evs1) =>
        match f a s1 with
        | None => None
        | Some (b, s2, evs2) => Some (b, s2, (evs1 ++ evs2)%list)
        end
    end.

Notation "x <- m ;; k" := (bind m (fun x => k))
  (at level 100, m at next level, right associativity).
Notation "m ;;; k" := (bind m (fun _ => k))
  (at level 100, right associativity).

(** [*p]: a nil pointer panics. *)
Definition deref (p : ptr) : M Config :=
  fun s =>
    match p with
    | None => None
    | Some l =>
        match heap s !! l with
        | None => None
        | Some k => Some (k, s, [])
        end
    end.

(** [*p = k] *)
Definition store (p : ptr) (k : Config) : M unit :=
  fun s =>
    match p with
    | None => None
    | Some l =>
        match heap s !! l with
        | None => None
        | Some _ =>
            Some (tt, mkState (<[l := k]> (heap s)) (glob_c s) (glob_local s)
                        (world s), [])
        end
    end.

Definition get_c : M ptr := fun s => Some (glob_c s, s, []).

Definition set_c (p : ptr) : M unit :=
  fun s => Some (tt, mkState (heap s) p (glob_local s) (world s), []).

Definition set_local (b : bool) : M unit :=
  fun s => Some (tt, mkState (heap s) (glob_c s) b (world s), []).

(** A call that leaves the package: it acts on the world and is
    recorded with its result. *)
Definition extern {A} (f : W -> A * W) (ev : A -> Event) : M A :=
  fun s =>
    let (a, w) := f (world s) in
    Some (a, mkState (heap s) (glob_c s) (glob_local s) w, [ev a]).

Definition extern_ (f : W -> W) (ev : Event) : M unit :=
  extern (fun w => (tt, f w)) (fun _ => ev).

Definition log_Println (args : list LogArg) : M unit :=
  extern_ (fun w => w) (EvLog args).

Definition when (b : bool) (m : M unit) : M unit :=
  if b then m else ret tt.

Definition is_nil {A} (o : option A) : bool :=
  match o with None => true | Some _ => false end.

(** ** CheckConfig *)

(** The checks in the order of the source, each with the error the source
    returns for it; the three warnings are logged only once every check
    has passed. *)
Definition CheckConfig (c : ptr) : M (option error) :=
  k <- deref c ;;
  if String.eqb (CacheDir k) "" then ret (Some errNoCacheDir)
  else if Nat.eqb (length (Domains k)) 0%nat then ret (Some errNoDomains)
  else if negb (Local k) && String.eqb (SSLEmail k) ""
    then ret (Some errNoMail)
  else if String.eqb (DirectoryURL k) "" then ret (Some errNoDirectoryURL)
  else if String.eqb (DNSProvider k) "" && String.eqb (HTTPAddress k) ""
          && String.eqb (TLSAddress k) "" then ret (Some errNoChallenge)
  else if Z.eqb (RenewBefore k) 0 then ret (Some errNoCacheDir)
  else if Z.eqb (CheckInterval k) 0 then ret (Some errNoCheckInterval)
  else if Z.eqb (CacheDirPerm k) 0 then ret (Some errNoCacheDirPerm)
  else if negb (map_index supportedKeyTypes (KeyType k))
    then ret (Some errUnsupportedKeyType)
  else
    when (is_nil (WillRenewCertificate k)
          && (negb (String.eqb (HTTPAddress k) "")
              || negb (String.eqb (TLSAddress k) "")))
      (log_Println [LStr "[WARNING] no WillRenewCertificate handler specified, to handle graceful server shutdown!"]) ;;;
    when (is_nil (DidRenewCertificate k)
          && (negb (String.eqb (HTTPAddress k) "")
              || negb (String.eqb (TLSAddress k) "")))
      (log_Println [LStr "[WARNING] no DidRenewCertificate handler specified, to bring the service back up after renewing the certificate!"]) ;;;
    when (is_nil (FailedToRenewCertificate k))
      (log_Println [LStr "[WARNING] no FailedToRenewCertificate handler specified! Simplecert will fatal on errors!"]) ;;;
    ret None.

(** ** Init and loadStoredCert *)

Variable env : Env.

(** What [Init] and [loadStoredCert] return: a [*CertReloader] and an
    [error], either of which may be nil. *)
Definition Result : Type := (option CertReloader * option error)%type.

(** A statement that reads the package-level [c]. *)
Definition withc {A} (f : Config -> M A) : M A :=
  p <- get_c ;; k <- deref p ;; f k.

(** A helper of the package: it sees the [Config] behind [c]. *)
Definition helper {A} (f : Config -> W -> A * W) (ev : A -> Event) : M A :=
  withc (fun k => extern (f k) ev).

Definition go_renewalRoutine (cert : Resource) : M unit :=
  extern_ (fun w => w) (EvGoRenewalRoutine cert).

Definition call_NewCertReloader (certFilePath keyFilePath : string)
    (logFile : File) (cleanup : option (W -> W)) : M Result :=
  helper (fun k => NewCertReloader env k certFilePath keyFilePath logFile cleanup)
    (EvNewCertReloader certFilePath keyFilePath logFile).

Definition loadStoredCert (certFilePath keyFilePath : string)
    (logFile : File) (cleanup : option (W -> W)) : M Result :=
  log_Println [LStr "[INFO] simplecert: found cert in cacheDir"] ;;;
  b <- withc (fun k =>
         let name := filepath_Join env (CacheDir k) certResourceFileName in
         extern (os_ReadFile env name) (EvReadFile name)) ;;
  match b with
  | inr err =>
      ret (None, Some (errors_New
        ("simplecert: failed to read CertResource.json from disk: " ++ Error err)))
  | inl b =>
      cr <- extern (fun w => (sonnet_Unmarshal env b, w)) (EvUnmarshal b) ;;
      match cr with
      | inr err =>
          ret (None, Some (errors_New
            ("simplecert: failed to unmarshal certificate resource: " ++ Error err)))
      | inl cr =>
          reloader <- call_NewCertReloader certFilePath keyFilePath logFile cleanup ;;
          let cert := getACMECertResource env cr in
          errRenew <- helper (fun k => renew env k cert) (EvRenew cert) ;;
          fatal <- match errRenew with
                   | None => ret None
                   | Some errRenew =>
                       withc (fun k =>
                         match FailedToRenewCertificate k with
                         | Some handler =>
                             extern_ (handler errRenew)
                               (EvFailedToRenewCertificate errRenew) ;;;
                             ret None
                         | None =>
                             ret (Some (errors_New
                               ("simplecert: failed to renew cached cert on startup and no failedToRenewCert handler is configured: "
                                ++ Error errRenew)))
                         end)
                   end ;;
          match fatal with
          | Some e => ret (None, Some e)
          | None => go_renewalRoutine cert ;;; ret reloader
          end
      end
  end.

(** The code from the label [obtainNewCert] to the end of [Init];
    [certDomainsChanged] is the variable of that name at the jump. *)
Definition Init_obtainNewCert (certFilePath keyFilePath : string)
    (logFile : File) (cleanup : option (W -> W))
    (certDomainsChanged : bool) : M Result :=
  u <- helper (getUser env) EvGetUser ;;
  match u with
  | inr err =>
      ret (None, Some (errors_New
        ("simplecert: failed to get ACME user: " ++ Error err)))
  | inl u =>
      client <- withc (fun k =>
                  extern (createClient env k u (DNSServers k))
                    (EvCreateClient u (DNSServers k))) ;;
      match client with
      | inr err =>
          ret (None, Some (errors_New
            ("simplecert: failed to create lego.Client: " ++ Error err)))
      | inl client =>
          request <- withc (fun k => ret (mkObtainRequest (Domains k) true)) ;;
          cert <- extern (Certificate_Obtain env client request)
                    (EvObtain request) ;;
          match cert with
          | inr err =>
              if certDomainsChanged then
                withc (fun k => log_Println
                  [LStr "[ERROR] simplecert: failed to obtain new cert for changed domains: ";
                   LStrs (Domains k); LStr " error: "; LErr err]) ;;;
                log_Println
                  [LStr "[INFO] simplecert: loading cached certificate from disk"] ;;;
                loadStoredCert certFilePath keyFilePath logFile cleanup
              else
                ret (None, Some (errors_New
                  ("simplecert: failed to obtain cert: " ++ Error err)))
          | inl cert =>
              log_Println
                [LStr "[INFO] simplecert: client obtained cert for domain: ";
                 LStr (cert_Domain env cert)] ;;;
              err <- withc (fun k =>
                       extern (saveCertToDisk env k cert (CacheDir k))
                         (EvSaveCertToDisk cert (CacheDir k))) ;;
              match err with
              | Some err =>
                  ret (None, Some (errors_New
                    ("simplecert: failed to write cert to disk: " ++ Error err)))
              | None =>
                  log_Println [LStr "[INFO] simplecert: wrote new cert to disk!"] ;;;
                  go_renewalRoutine cert ;;;
                  call_NewCertReloader certFilePath keyFilePath logFile cleanup
              end
          end
      end
  end.

Definition call_ensureCacheDirExists : M unit :=
  withc (fun k =>
    extern_ (ensureCacheDirExists env k (CacheDir k))
      (EvEnsureCacheDirExists (CacheDir k))).

Definition call_createLocalCert (certFilePath keyFilePath : string) : M unit :=
  withc (fun k =>
    extern_ (createLocalCert env k certFilePath keyFilePath)
      (EvCreateLocalCert certFilePath keyFilePath)).

Definition call_certCached : M bool :=
  withc (fun k =>
    extern (certCached env k (CacheDir k)) (EvCertCached (CacheDir k))).

Definition call_domainsChanged (certFilePath keyFilePath : string) : M bool :=
  helper (fun k => domainsChanged env k certFilePath keyFilePath)
    (EvDomainsChanged certFilePath keyFilePath).

(** The branch [if c.Local { ... }] of [Init]. *)
Definition Init_local (logFile : File) (cleanup : option (W -> W)) : M Result :=
  set_local true ;;;
  (p <- get_c ;; k <- deref p ;;
   store p (set_CacheDir (filepath_Join env (CacheDir k) "local") k)) ;;;
  call_ensureCacheDirExists ;;;
  certFilePath <- withc (fun k => ret (filepath_Join env (CacheDir k) certFileName)) ;;
  keyFilePath <- withc (fun k => ret (filepath_Join env (CacheDir k) keyFileName)) ;;
  cached <- call_certCached ;;
  (if cached then
     changed <- call_domainsChanged certFilePath keyFilePath ;;
     when changed
       (log_Println
          [LStr "[INFO] cert cached but domains have changed. generating a new one..."] ;;;
        call_createLocalCert certFilePath keyFilePath)
   else call_createLocalCert certFilePath keyFilePath) ;;;
  withc (fun k =>
    when (UpdateHosts k) (extern_ (updateHosts env k) EvUpdateHosts)) ;;;
  call_NewCertReloader certFilePath keyFilePath logFile cleanup.

Definition Init (cfg : ptr) (cleanup : option (W -> W)) : M Result :=
  err <- CheckConfig cfg ;;
  match err with
  | Some err => ret (None, Some err)
  | None =>
      set_c cfg ;;;
      call_ensureCacheDirExists ;;;
      logFile <- withc (fun k =>
                   let name := filepath_Join env (CacheDir k) logFileName in
                   extern (os_OpenFile env name [O_WRONLY; O_CREATE; O_APPEND] 493)
                     (EvOpenFile name [O_WRONLY; O_CREATE; O_APPEND] 493)) ;;
      match logFile with
      | inr err =>
          ret (None, Some (errors_New
            ("simplecert: failed to create logfile: " ++ Error err)))
      | inl logFile =>
          extern_ (fun w => w) (EvLogSetOutput logFile) ;;;
          isLocal <- withc (fun k => ret (Local k)) ;;
          if isLocal then Init_local logFile cleanup
          else
            certFilePath <- withc (fun k =>
                              ret (filepath_Join env (CacheDir k) certFileName)) ;;
            keyFilePath <- withc (fun k =>
                             ret (filepath_Join env (CacheDir k) keyFileName)) ;;
            cached <- call_certCached ;;
            if cached then
              changed <- call_domainsChanged certFilePath keyFilePath ;;
              if changed then
                log_Println
                  [LStr "[INFO] domains have changed. Obtaining a new certificate..."] ;;;
                Init_obtainNewCert certFilePath keyFilePath logFile cleanup true
              else loadStoredCert certFilePath keyFilePath logFile cleanup
            else
              Init_obtainNewCert certFilePath keyFilePath logFile cleanup false
      end
  end.

End Simplecert.

Arguments Config : clear implicits.
Arguments Event : clear implicits.
Arguments Env : clear implicits.
Arguments State : clear implicits.

(** ** The validator as the specification words it *)

Section Spec.

Context {W : Type}.

(** The ordered list of section 4.1 of the specification: the first
    violated invariant, or nothing when the configuration is valid. *)
Definition spec_first_violation (k : Config W) : option error :=
  if String.eqb (CacheDir k) "" then Some errNoCacheDir
  else if Nat.eqb (length (Domains k)) 0%nat then Some errNoDomains
  else if negb (Local k) && String.eqb (SSLEmail k) "" then Some errNoMail
  else if String.eqb (DirectoryURL k) "" then Some errNoDirectoryURL
  else if String.eqb (DNSProvider k) "" && String.eqb (HTTPAddress k) ""
          && String.eqb (TLSAddress k) "" then Some errNoChallenge
  else if Z.eqb (RenewBefore k) 0 then Some errNoRenewBefore
  else if Z.eqb (CheckInterval k) 0 then Some errNoCheckInterval
  else if Z.eqb (CacheDirPerm k) 0 then Some errNoCacheDirPerm
  else if negb (bool_decide (KeyType k ∈ [EC256; EC384; RSA2048; RSA4096; RSA8192]))
    then Some errUnsupportedKeyType
  else None.

(** The checks that come before the key type in [CheckConfig]. *)
Definition earlier_checks_pass (k : Config W) : Prop :=
  CacheDir k <> "" /\ Domains k <> [] /\
  (Local k = false -> SSLEmail k <> "") /\
  DirectoryURL k <> "" /\
  ~ (DNSProvider k = "" /\ HTTPAddress k = "" /\ TLSAddress k = "") /\
  RenewBefore k <> 0 /\ CheckInterval k <> 0 /\ CacheDirPerm k <> 0.

(** A state whose heap holds [k] at address 0 (where the embedding puts
    the object behind [Default]) and whose package-level variables have
    their zero values. *)
Definition state_with (k : Config W) (w : W) : State W :=
  mkState {[0%nat := k]} nil_ptr false w.

Definition Default : ptr := Some 0%nat.

(** [Default] with the two fields a caller has to fill in. *)
Definition Default_with (domains : list string) (email : string) : Config W :=
  {| RenewBefore := 30 * 24;
     CheckInterval := 2 * 24 * time_Hour;
     SSLEmail := email;
     DirectoryURL := "https://acme-v02.api.letsencrypt.org/directory";
     HTTPAddress := ":80";
     TLSAddress := ":443";
     CacheDirPerm := 448;
     Domains := domains;
     CacheDir := "letsencrypt";
     DNSProvider := "";
     Local := false;
     UpdateHosts := true;
     DNSServers := [];
     KeyType := RSA2048;
     WillRenewCertificate := None;
     DidRenewCertificate := None;
     FailedToRenewCertificate := None |}.

(** A configuration that passes the first five checks of [CheckConfig]
    and whose renew-before window is zero. *)
Definition renewBefore_zero_config : Config W :=
  {| RenewBefore := 0;
     CheckInterval := 2 * 24 * time_Hour;
     SSLEmail := "admin@example.com";
     DirectoryURL := "https://acme-v02.api.letsencrypt.org/directory";
     HTTPAddress := ":80";
     TLSAddress := ":443";
     CacheDirPerm := 448;
     Domains := ["example.com"];
     CacheDir := "letsencrypt";
     DNSProvider := "";
     Local := false;
     UpdateHosts := true;
     DNSServers := [];
     KeyType := RSA2048;
     WillRenewCertificate := None;
     DidRenewCertificate := None;
     FailedToRenewCertificate := None |}.

End Spec.

(** ** A deterministic environment with failure injection

    A small world on which the functions run by computation: what is
    cached, whether the ACME client and the renewal check fail, and how
    often the host's failure hook has run. *)

Module Fake.

Record World : Type := mkWorld {
  cached : bool;
  changed : bool;
  obtain_fails : bool;
  renew_fails : bool;
  reloader_fails : bool;
  hook_runs : nat
}.

Definition File : Type := string.
Definition CertReloader : Type := (string * string)%type.
Definition User : Type := string.
Definition Client : Type := list string.
Definition Resource : Type := list string.
Definition CR : Type := list string.

Definition Events : Type :=
  list (Event File CertReloader User Client Resource CR).

Definition fresh (w : World) : World :=
  mkWorld true false (obtain_fails w) (renew_fails w) (reloader_fails w)
    (hook_runs w).

Definition count_hook (e : error) (w : World) : World :=
  mkWorld (cached w) (changed w) (obtain_fails w) (renew_fails w)
    (reloader_fails w) (S (hook_runs w)).

Definition acme_down : error := errors_New "acme: connection refused".

Definition env : Env World File CertReloader User Client Resource CR :=
  {| filepath_Join := fun a b => a ++ "/" ++ b;
     os_OpenFile := fun name _ _ w => (inl name, w);
     os_ReadFile := fun _ w => (inl [], w);
     sonnet_Unmarshal := fun _ => inl ["a.com"];
     ensureCacheDirExists := fun _ _ w => w;
     certCached := fun _ _ w => (cached w, w);
     domainsChanged := fun _ _ _ w => (changed w, w);
     createLocalCert := fun _ _ _ w => fresh w;
     updateHosts := fun _ w => w;
     NewCertReloader := fun _ certFilePath keyFilePath _ _ w =>
       (if reloader_fails w
        then (None, Some (errors_New "tls: failed to find any PEM data"))
        else (Some (certFilePath, keyFilePath), None), w);
     getUser := fun k w => (inl (SSLEmail k), w);
     createClient := fun _ _ dns w => (inl dns, w);
     Certificate_Obtain := fun _ request w =>
       if obtain_fails w then (inr acme_down, w)
       else (inl (request_Domains request), w);
     cert_Domain := fun cert => hd "" cert;
     saveCertToDisk := fun _ _ _ w => (None, fresh w);
     getACMECertResource := fun cr => cr;
     renew := fun _ _ w =>
       if renew_fails w then (Some acme_down, w) else (None, w) |}.

(** A configuration that passes validation: [Default] for two domains,
    with a contact address. *)
Definition config (isLocal : bool)
    (handler : option (error -> World -> World)) : Config World :=
  {| RenewBefore := 30 * 24;
     CheckInterval := 2 * 24 * time_Hour;
     SSLEmail := "admin@a.com";
     DirectoryURL := "https://acme-v02.api.letsencrypt.org/directory";
     HTTPAddress := ":80";
     TLSAddress := ":443";
     CacheDirPerm := 448;
     Domains := ["a.com"; "b.com"];
     CacheDir := "letsencrypt";
     DNSProvider := "";
     Local := isLocal;
     UpdateHosts := true;
     DNSServers := [];
     KeyType := RSA2048;
     WillRenewCertificate := None;
     DidRenewCertificate := None;
     FailedToRenewCertificate := handler |}.

(** Worlds: nothing cached and the ACME server down; a cached
    certificate for other domains, with the ACME server up, with it down,
    and with it down while the cached certificate is due for renewal; a
    cached certificate for the requested domains, due for renewal, with
    the ACME server down. *)
Definition empty_cache_acme_down : World := mkWorld false false true false false 0.
Definition drift_acme_up : World := mkWorld true true false false false 0.
Definition drift_acme_down : World := mkWorld true true true false false 0.
Definition cached_expiring_acme_down : World := mkWorld true false true true false 0.

(** The package right after the host built its [Config] at address 0:
    [c] is still nil. *)
Definition start (k : Config World) (w : World) : State World :=
  state_with k w.

(** The package once [Init] has published the [Config]. *)
Definition running (k : Config World) (w : World) : State World :=
  mkState {[0%nat := k]} (Some 0%nat) false w.

Definition run_Init (k : Config World) (w : World) :=
  Init env (Some 0%nat) None (start k w).

(** The same environment with faults of the file system, of the decoder
    and of the set-up of the ACME client. *)
Record Faults : Type := mkFaults {
  open_fails : bool;
  read_fails : bool;
  unmarshal_fails : bool;
  user_fails : bool;
  client_fails : bool;
  save_fails : bool
}.

Definition io_error : error := errors_New "permission denied".

Definition faulty (flt : Faults)
    : Env World File CertReloader User Client Resource CR :=
  {| filepath_Join := fun a b => a ++ "/" ++ b;
     os_OpenFile := fun name _ _ w =>
       (if open_fails flt then inr io_error else inl name, w);
     os_ReadFile := fun _ w =>
       (if read_fails flt then inr io_error else inl [], w);
     sonnet_Unmarshal := fun _ =>
       if unmarshal_fails flt
       then inr (errors_New "unexpected end of JSON input")
       else inl ["a.com"];
     ensureCacheDirExists := fun _ _ w => w;
     certCached := fun _ _ w => (cached w, w);
     domainsChanged := fun _ _ _ w => (changed w, w);
     createLocalCert := fun _ _ _ w => fresh w;
     updateHosts := fun _ w => w;
     NewCertReloader := fun _ certFilePath keyFilePath _ _ w =>
       (if reloader_fails w
        then (None, Some (errors_New "tls: failed to find any PEM data"))
        else (Some (certFilePath, keyFilePath), None), w);
     getUser := fun k w =>
       (if user_fails flt then inr io_error else inl (SSLEmail k), w);
     createClient := fun _ _ dns w =>
       (if client_fails flt then inr acme_down else inl dns, w);
     Certificate_Obtain := fun _ request w =>
       if obtain_fails w then (inr acme_down, w)
       else (inl (request_Domains request), w);
     cert_Domain := fun cert => hd "" cert;
     saveCertToDisk := fun _ _ _ w =>
       if save_fails flt then (Some io_error, w) else (None, fresh w);
     getACMECertResource := fun cr => cr;
     renew := fun _ _ w =>
       if renew_fails w then (Some acme_down, w) else (None, w) |}.

Definition no_faults : Faults := mkFaults false false false false false false.
Definition only_open_fails : Faults := mkFaults true false false false false false.
Definition only_read_fails : Faults := mkFaults false true false false false false.
Definition only_user_fails : Faults := mkFaults false false false true false false.
Definition only_save_fails : Faults := mkFaults false false false false false true.

(** Two more worlds: nothing cached and the ACME server up; a cached
    certificate for the requested domains, not due for renewal. *)
Definition empty_cache_acme_up : World := mkWorld false false false false false 0.
Definition cached_valid : World := mkWorld true false false false false 0.

(** A cached certificate for the requested domains, due for renewal,
    whose files on disk cannot be loaded, with the ACME server down. *)
Definition cached_expiring_unloadable : World := mkWorld true false true true true 0.

Definition run_faulty (flt : Faults) (k : Config World) (w : World) :=
  Init (faulty flt) (Some 0%nat) None (start k w).

End Fake.

(** ** Reasoning about runs *)

Section Runs.

Context {W File CertReloader User Client Resource CR : Type}.

Local Abbreviation Config := (Config W).
Local Abbreviation State := (State W).
Local Abbreviation Event := (Event File CertReloader User Client Resource CR).
Local Abbreviation Env := (Env W File CertReloader User Client Resource CR).
Local Abbreviation M := (@M W File CertReloader User Client Resource CR).
Local Abbreviation Result := (@Result CertReloader).

(** [m] run from [s] does not panic, and its value, final state and
    events satisfy [Q]. *)
Definition wp {A} (m : M A) (s : State)
    (Q : A -> State -> list Event -> Prop) : Prop :=
  match m s with
  | Some (a, s', evs) => Q a s' evs
  | None => False
  end.

Definition with_world (w : W) (s : State) : State :=
  mkState (heap s) (glob_c s) (glob_local s) w.

(** One of the advisory lines [CheckConfig] logs. *)
Definition is_warning (ev : Event) : Prop :=
  exists msg, ev = EvLog [LStr msg].

(** The errors the host's [FailedToRenewCertificate] hook was called
    with during a run, oldest first. *)
Definition hook_calls (evs : list Event) : list error :=
  omap (fun ev => match ev with
                  | EvFailedToRenewCertificate err => Some err
                  | _ => None
                  end) evs.

(** The run went through [loadStoredCert]: the record of the cached
    certificate was read from disk. *)
Definition loads_stored_cert (evs : list Event) : Prop :=
  exists name res, In (EvReadFile name res) evs.

(** The run found a cached certificate whose domains differ from the
    requested ones. *)
Definition cache_drifted (evs : list Event) : Prop :=
  (exists dir, In (EvCertCached dir true) evs) /\
  (exists certFilePath keyFilePath,
      In (EvDomainsChanged certFilePath keyFilePath true) evs).


(** What a run of [loadStoredCert] for the cached files [certFilePath]
    and [keyFilePath] hands back, read off its events: one of its three
    errors, or the reloader built from the cached files once the renewal
    routine is started. *)
Definition load_outcome (k : Config) (certFilePath keyFilePath : string)
    (r : Result) (evs : list Event) : Prop :=
  (exists name e,
      In (EvReadFile name (inr e)) evs /\
      r = (None, Some (errors_New
            ("simplecert: failed to read CertResource.json from disk: " ++ Error e)))) \/
  (exists data e,
      In (EvUnmarshal data (inr e)) evs /\
      r = (None, Some (errors_New
            ("simplecert: failed to unmarshal certificate resource: " ++ Error e)))) \/
  (exists cert e,
      In (EvRenew cert (Some e)) evs /\ FailedToRenewCertificate k = None /\
      r = (None, Some (errors_New
            ("simplecert: failed to renew cached cert on startup and no failedToRenewCert handler is configured: "
             ++ Error e)))) \/
  (exists logFile cert,
      In (EvNewCertReloader certFilePath keyFilePath logFile r) evs /\
      In (EvGoRenewalRoutine cert) evs /\
      (In (EvRenew cert None) evs \/
       exists e, In (EvRenew cert (Some e)) evs /\
                 FailedToRenewCertificate k <> None /\ hook_calls evs = [e])).

(** The claims of the specification that the code does not meet, as
    predicates of one start-up. *)


(** "When the renewal check fails and a failure hook is configured,
    [loadStoredCert] still returns the reloader." *)
Definition hooked_renewal_failure_returns_reloader (env : Env)
    (certFilePath keyFilePath : string) (logFile : File)
    (cleanup : option (W -> W)) (s : State) : Prop :=
  forall r s' evs,
    loadStoredCert env certFilePath keyFilePath logFile cleanup s
    = Some (r, s', evs) ->
    (exists l k handler,
        glob_c s = Some l /\ heap s !! l = Some k /\
        FailedToRenewCertificate k = Some handler) ->
    (exists cert e, In (EvRenew cert (Some e)) evs) ->
    exists reloader, r = (Some reloader, None).

(** "On drift, [Init] does not load the cached certificate." *)
Definition drift_never_loads_cache (env : Env) (cfg : ptr)
    (cleanup : option (W -> W)) (s : State) : Prop :=
  forall r s' evs,
    Init env cfg cleanup s = Some (r, s', evs) ->
    cache_drifted evs -> ~ loads_stored_cert evs.

(** "[Init] leaves every field of the caller's [Config] as it was." *)
Definition config_unchanged (env : Env) (cfg : ptr)
    (cleanup : option (W -> W)) (s : State) : Prop :=
  forall r s' evs,
    Init env cfg cleanup s = Some (r, s', evs) -> heap s' = heap s.

(** "[Init] does not publish the configuration through a package-level
    variable." *)
Definition config_not_published (env : Env) (cfg : ptr)
    (cleanup : option (W -> W)) (s : State) : Prop :=
  forall r s' evs,
    Init env cfg cleanup s = Some (r, s', evs) -> glob_c s' = glob_c s.

(** ** Selecting the calls of a run *)

(** The events of a run that [p] selects, oldest first. *)
Definition calls (p : Event -> bool) (evs : list Event) : list Event :=
  List.filter p evs.

Definition is_Obtain (ev : Event) : bool :=
  match ev with EvObtain _ _ => true | _ => false end.

Definition is_NewCertReloader (ev : Event) : bool :=
  match ev with EvNewCertReloader _ _ _ _ => true | _ => false end.

Definition is_go_renewalRoutine (ev : Event) : bool :=
  match ev with EvGoRenewalRoutine _ => true | _ => false end.

Definition is_createLocalCert (ev : Event) : bool :=
  match ev with EvCreateLocalCert _ _ => true | _ => false end.

Definition is_updateHosts (ev : Event) : bool :=
  match ev with EvUpdateHosts => true | _ => false end.

(** The calls of the acquisition path: [getUser], [createClient], the
    ACME client and [saveCertToDisk]. *)
Definition is_acquisition (ev : Event) : bool :=
  match ev with
  | EvGetUser _ | EvCreateClient _ _ _ | EvObtain _ _
  | EvSaveCertToDisk _ _ _ => true
  | _ => false
  end.

(** The calls only [loadStoredCert] makes, and the start of the renewal
    routine. *)
Definition is_renewal_machinery (ev : Event) : bool :=
  match ev with
  | EvReadFile _ _ | EvUnmarshal _ _ | EvRenew _ _
  | EvFailedToRenewCertificate _ | EvGoRenewalRoutine _ => true
  | _ => false
  end.

(** Everything but the lines of the logger. *)
Definition is_not_log (ev : Event) : bool :=
  match ev with EvLog _ => false | _ => true end.

(** The nine conditions under which [CheckConfig] has nothing to
    report. *)
Definition acceptable (k : Config) : Prop :=
  CacheDir k <> "" /\ Domains k <> [] /\
  (Local k = false -> SSLEmail k <> "") /\
  DirectoryURL k <> "" /\
  ~ (DNSProvider k = "" /\ HTTPAddress k = "" /\ TLSAddress k = "") /\
  RenewBefore k <> 0 /\ CheckInterval k <> 0 /\ CacheDirPerm k <> 0 /\
  (KeyType k = EC256 \/ KeyType k = EC384 \/ KeyType k = RSA2048 \/
   KeyType k = RSA4096 \/ KeyType k = RSA8192).

End Runs.

(** * Properties *)

(** ** The supported key types *)

Lemma supportedKeyTypes_index (kt : string) :
  map_index supportedKeyTypes kt = true <->
  kt = EC256 \/ kt = EC384 \/ kt = RSA2048 \/ kt = RSA4096 \/ kt = RSA8192.
Proof.
  unfold map_index, supportedKeyTypes.
  rewrite !lookup_insert, lookup_empty.
  repeat case_decide; simpl; split; intros;
    try discriminate; try reflexivity; intuition congruence.
Qed.

Lemma supportedKeyTypes_spec (kt : string) :
  map_index supportedKeyTypes kt =
  bool_decide (kt ∈ [EC256; EC384; RSA2048; RSA4096; RSA8192]).
Proof.
  destruct (map_index supportedKeyTypes kt) eqn:Hidx; symmetry.
  - apply bool_decide_eq_true. apply supportedKeyTypes_index in Hidx.
    rewrite !elem_of_cons. tauto.
  - apply bool_decide_eq_false. intros Hin.
    assert (map_index supportedKeyTypes kt = true) as Htrue; [|congruence].
    apply supportedKeyTypes_index. revert Hin.
    rewrite !elem_of_cons, elem_of_nil. tauto.
Qed.

Section Properties.

Context {W File CertReloader User Client Resource CR : Type}.

Local Abbreviation Config := (Config W).
Local Abbreviation State := (State W).
Local Abbreviation Event := (Event File CertReloader User Client Resource CR).
Local Abbreviation Env := (Env W File CertReloader User Client Resource CR).
Local Abbreviation M := (@M W File CertReloader User Client Resource CR).
Local Abbreviation Result := (@Result CertReloader).

(** ** Rules for runs *)

Lemma wp_run {A} (m : M A) (s : State) (Q : A -> State -> list Event -> Prop) :
  wp m s Q <-> exists a s' evs, m s = Some (a, s', evs) /\ Q a s' evs.
Proof.
  unfold wp. split.
  - destruct (m s) as [[[a s'] evs]|]; [eauto | tauto].
  - intros (a & s' & evs & -> & HQ). exact HQ.
Qed.

Lemma wp_ret {A} (a : A) (s : State) (Q : A -> State -> list Event -> Prop) :
  Q a s [] -> wp (ret a) s Q.
Proof. exact (fun H => H). Qed.

Lemma wp_bind {A B} (m : M A) (f : A -> M B) (s : State)
    (Q : B -> State -> list Event -> Prop) :
  wp m s (fun a s1 evs1 =>
            wp (f a) s1 (fun b s2 evs2 => Q b s2 (evs1 ++ evs2)%list)) ->
  wp (bind m f) s Q.
Proof.
  unfold wp, bind. destruct (m s) as [[[a s1] evs1]|]; [|tauto].
  destruct (f a s1) as [[[b s2] evs2]|]; tauto.
Qed.

Lemma wp_extern {A} (f : W -> A * W) (ev : A -> Event) (s : State)
    (Q : A -> State -> list Event -> Prop) :
  (forall a w, f (world s) = (a, w) -> Q a (with_world w s) [ev a]) ->
  wp (extern f ev) s Q.
Proof.
  unfold wp, extern. intros H. destruct (f (world s)) as [a w] eqn:Hf.
  apply H. reflexivity.
Qed.

Lemma wp_extern_ (f : W -> W) (ev : Event) (s : State)
    (Q : unit -> State -> list Event -> Prop) :
  Q tt (with_world (f (world s)) s) [ev] -> wp (extern_ f ev) s Q.
Proof. exact (fun H => H). Qed.

Lemma wp_log_Println (args : list LogArg) (s : State)
    (Q : unit -> State -> list Event -> Prop) :
  Q tt (with_world (world s) s) [EvLog args] -> wp (log_Println args) s Q.
Proof. exact (fun H => H). Qed.

Lemma wp_set_c (p : ptr) (s : State) (Q : unit -> State -> list Event -> Prop) :
  Q tt (mkState (heap s) p (glob_local s) (world s)) [] -> wp (set_c p) s Q.
Proof. exact (fun H => H). Qed.

Lemma wp_set_local (b : bool) (s : State)
    (Q : unit -> State -> list Event -> Prop) :
  Q tt (mkState (heap s) (glob_c s) b (world s)) [] -> wp (set_local b) s Q.
Proof. exact (fun H => H). Qed.

Lemma wp_get_c (s : State) (Q : ptr -> State -> list Event -> Prop) :
  Q (glob_c s) s [] -> wp get_c s Q.
Proof. exact (fun H => H). Qed.

Lemma wp_deref (l : loc) (k : Config) (s : State)
    (Q : Config -> State -> list Event -> Prop) :
  heap s !! l = Some k -> Q k s [] -> wp (deref (Some l)) s Q.
Proof. unfold wp, deref. intros ->. exact (fun H => H). Qed.

Lemma wp_store (l : loc) (k0 k : Config) (s : State)
    (Q : unit -> State -> list Event -> Prop) :
  heap s !! l = Some k0 ->
  Q tt (mkState (<[l := k]> (heap s)) (glob_c s) (glob_local s) (world s)) [] ->
  wp (store (Some l) k) s Q.
Proof. unfold wp, store. intros ->. exact (fun H => H). Qed.

Lemma wp_withc {A} (f : Config -> M A) (s : State) (l : loc) (k : Config)
    (Q : A -> State -> list Event -> Prop) :
  glob_c s = Some l -> heap s !! l = Some k ->
  wp (f k) s Q -> wp (withc f) s Q.
Proof.
  unfold wp, withc, bind, get_c, deref. intros -> ->.
  destruct (f k s) as [[[a s'] evs]|]; tauto.
Qed.

Ltac wp_side := simpl; first [reflexivity | eassumption | apply lookup_insert_eq].

(** One step of a run; the state is kept in normal form. *)
Ltac wp_step :=
  lazymatch goal with
  | |- wp (bind _ _) _ _ => apply wp_bind
  | |- wp (ret _) _ _ => apply wp_ret
  | |- wp (withc _) _ _ => eapply wp_withc; [wp_side | wp_side | ]; cbv beta
  | |- wp (helper _ _) _ _ => unfold helper
  | |- wp (extern _ _) _ _ => apply wp_extern; intros ? ? _
  | |- wp (extern_ _ _) _ _ => apply wp_extern_
  | |- wp (log_Println _) _ _ => apply wp_log_Println
  | |- wp (set_c _) _ _ => apply wp_set_c
  | |- wp (set_local _) _ _ => apply wp_set_local
  | |- wp get_c _ _ => apply wp_get_c
  | |- wp (deref _) _ _ => eapply wp_deref; [wp_side | ]
  | |- wp (store _ _) _ _ => eapply wp_store; [wp_side | ]
  | |- wp (go_renewalRoutine _) _ _ => unfold go_renewalRoutine
  | |- wp (call_NewCertReloader _ _ _ _ _) _ _ => unfold call_NewCertReloader
  | |- wp (call_ensureCacheDirExists _) _ _ => unfold call_ensureCacheDirExists
  | |- wp (call_createLocalCert _ _ _) _ _ => unfold call_createLocalCert
  | |- wp (call_certCached _) _ _ => unfold call_certCached
  | |- wp (call_domainsChanged _ _ _) _ _ => unfold call_domainsChanged
  | |- wp (when ?b _) _ _ => destruct b eqn:?; unfold when
  | |- wp (match ?x with _ => _ end) _ _ => destruct x eqn:?
  | |- wp (if ?x then _ else _) _ _ => destruct x eqn:?
  | |- wp (let _ := _ in _) _ _ => cbv zeta
  end; cbn [heap glob_c glob_local world with_world].

(** ** CheckConfig *)

Lemma In_after_warnings (ev : Event) (cevs rest : list Event) :
  Forall is_warning cevs -> In ev (cevs ++ rest) -> is_warning ev \/ In ev rest.
Proof.
  intros Hall Hin. apply in_app_or in Hin.
  destruct Hin as [Hin|Hin]; [left|right; exact Hin].
  rewrite Forall_forall in Hall. apply Hall, list_elem_of_In, Hin.
Qed.

(** Membership of an event in the events of a run of [Init], whose first
    events are the warnings of [CheckConfig]: one goal for each event of
    the run it can be. *)
Ltac in_run Hw H :=
  apply (In_after_warnings _ _ _ Hw) in H;
  destruct H as [[? H]|H];
  [discriminate H
  |simpl in H; repeat (destruct H as [H|H]; [try discriminate H|]);
   try contradiction].

(** [CheckConfig] panics on a pointer that is nil, changes nothing, and
    logs only when it accepts. On the configurations where the
    specification's list does not stop at the renew-before window it
    returns what the list says; where the list stops there, it returns
    the error of the cache directory. *)
Lemma CheckConfig_run (l : loc) (k : Config) (s : State) :
  heap s !! l = Some k ->
  exists r (evs : list Event),
    CheckConfig (Some l) s = Some (r, s, evs) /\
    Forall is_warning evs /\ (r <> None -> evs = []) /\
    (spec_first_violation k <> Some errNoRenewBefore ->
     r = spec_first_violation k) /\
    (spec_first_violation k = Some errNoRenewBefore ->
     r = Some errNoCacheDir).
Proof.
  intros Hk. unfold CheckConfig, spec_first_violation, bind, deref, when.
  rewrite Hk, <- supportedKeyTypes_spec. destruct s as [h c lcl w].
  repeat match goal with
  | |- context [if ?b then _ else _] => destruct b
  end; simpl;
  eexists _, _; (split; [reflexivity|]);
  (split; [repeat constructor; eexists; reflexivity|]);
  repeat split; intros; congruence.
Qed.

Lemma CheckConfig_inv (p : ptr) (s s1 : State) (r : option error)
    (evs1 : list Event) :
  CheckConfig p s = Some (r, s1, evs1) ->
  exists l k, p = Some l /\ heap s !! l = Some k /\ s1 = s /\
              Forall is_warning evs1 /\ (r <> None -> evs1 = []).
Proof.
  intros Hrun. destruct p as [l|]; [|discriminate Hrun].
  destruct (heap s !! l) as [k|] eqn:Hk.
  - destruct (CheckConfig_run l k s Hk) as (r' & evs' & Hrun' & Hw & Hrej & _).
    rewrite Hrun' in Hrun. injection Hrun as <- <- <-. eauto 10.
  - unfold CheckConfig, bind, deref in Hrun. rewrite Hk in Hrun. discriminate.
Qed.


(** C1 (the code departs from the claim): a configuration that passes the
    first five checks and whose renew-before window is zero. The
    specification's list stops at the renew-before window, and
    [CheckConfig] returns [errNoCacheDir], the error of a missing cache
    directory, although the cache directory is set. *)
Theorem C1_CheckConfig_renewBefore_zero_reports_errNoCacheDir (w : W) :
  CheckConfig (Some 0%nat) (state_with renewBefore_zero_config w)
  = Some (Some errNoCacheDir, state_with renewBefore_zero_config w, @nil Event)
  /\ spec_first_violation (W:=W) renewBefore_zero_config = Some errNoRenewBefore
  /\ CacheDir (W:=W) renewBefore_zero_config = "letsencrypt"
  /\ RenewBefore (W:=W) renewBefore_zero_config = 0.
Proof.
  split; [|repeat split].
  unfold CheckConfig, bind, deref, state_with. simpl.
  rewrite lookup_singleton_eq. reflexivity.
Qed.

Lemma earlier_checks_pass_bools (k : Config) :
  earlier_checks_pass k ->
  String.eqb (CacheDir k) "" = false /\
  Nat.eqb (length (Domains k)) 0%nat = false /\
  negb (Local k) && String.eqb (SSLEmail k) "" = false /\
  String.eqb (DirectoryURL k) "" = false /\
  String.eqb (DNSProvider k) "" && String.eqb (HTTPAddress k) ""
    && String.eqb (TLSAddress k) "" = false /\
  Z.eqb (RenewBefore k) 0 = false /\
  Z.eqb (CheckInterval k) 0 = false /\
  Z.eqb (CacheDirPerm k) 0 = false.
Proof.
  intros (Hdir & Hdom & Hmail & Hurl & Hch & Hrb & Hci & Hperm).
  repeat split.
  - apply String.eqb_neq, Hdir.
  - destruct (Domains k); [congruence | reflexivity].
  - destruct (Local k); [reflexivity|]. simpl. apply String.eqb_neq. auto.
  - apply String.eqb_neq, Hurl.
  - destruct (String.eqb_spec (DNSProvider k) ""); [|reflexivity].
    destruct (String.eqb_spec (HTTPAddress k) ""); [|reflexivity].
    destruct (String.eqb_spec (TLSAddress k) ""); [|reflexivity].
    tauto.
  - apply Z.eqb_neq, Hrb.
  - apply Z.eqb_neq, Hci.
  - apply Z.eqb_neq, Hperm.
Qed.

(** C8: on a configuration that passes the eight checks before it,
    [CheckConfig] returns [errUnsupportedKeyType] exactly when the key
    type is none of P256, P384, 2048, 4096 and 8192. *)
Theorem C8_CheckConfig_unsupported_key_type_iff (l : loc) (k : Config)
    (s : State) :
  heap s !! l = Some k ->
  earlier_checks_pass k ->
  exists r (evs : list Event),
    CheckConfig (Some l) s = Some (r, s, evs) /\
    (r = Some errUnsupportedKeyType <->
     ~ (KeyType k = EC256 \/ KeyType k = EC384 \/ KeyType k = RSA2048 \/
        KeyType k = RSA4096 \/ KeyType k = RSA8192)).
Proof.
  intros Hk Hpass.
  destruct (earlier_checks_pass_bools k Hpass)
    as (H1 & H2 & H3 & H4 & H5 & H6 & H7 & H8).
  pose proof (supportedKeyTypes_index (KeyType k)) as Hidx.
  unfold CheckConfig, bind, deref, when. rewrite Hk, H1, H2, H3, H4, H5, H6, H7, H8.
  destruct s as [h c lcl w].
  destruct (map_index supportedKeyTypes (KeyType k)); simpl.
  - repeat match goal with
    | |- context [if ?b then _ else _] => destruct b
    end; simpl; eexists _, _; (split; [reflexivity|]);
    (split; [discriminate | intros Hno; exfalso; apply Hno, Hidx; reflexivity]).
  - eexists _, _; split; [reflexivity|].
    split; [intros _ Hyes; apply Hidx in Hyes; discriminate | reflexivity].
Qed.

(** C9: a configuration that meets every invariant of the ordered list
    is accepted whatever hooks are set or unset; all [CheckConfig] does
    about hooks is log warnings, and it logs one when the failure hook is
    unset. *)
Theorem C9_CheckConfig_missing_hooks_only_warn (l : loc) (k : Config)
    (s : State) :
  heap s !! l = Some k ->
  spec_first_violation k = None ->
  exists evs : list Event,
    CheckConfig (Some l) s = Some (None, s, evs) /\
    Forall is_warning evs /\
    (FailedToRenewCertificate k = None ->
     In (EvLog [LStr "[WARNING] no FailedToRenewCertificate handler specified! Simplecert will fatal on errors!"]) evs).
Proof.
  intros Hk Hvalid.
  destruct (CheckConfig_run l k s Hk) as (r & evs & Hrun & Hw & _ & Hspec & _).
  rewrite Hvalid in Hspec. specialize (Hspec ltac:(discriminate)). subst r.
  exists evs. split; [exact Hrun|]. split; [exact Hw|].
  intros Hnil. revert Hrun. unfold CheckConfig, bind, deref, when.
  rewrite Hk, Hnil. cbn [is_nil]. destruct s as [h c lcl w].
  repeat match goal with
  | |- context [if ?b then _ else _] => destruct b
  end; simpl; intros [= <-]; simpl; auto.
Qed.

(** C10: [Default] as shipped is rejected with [errNoDomains]: its domain
    list is empty, and so is its contact address. With domains and no
    contact address it is rejected with [errNoMail]; with both filled in
    it is accepted. *)
Theorem C10_CheckConfig_Default_rejected (w : W) :
  CheckConfig Default (state_with Default_Config w)
  = Some (Some errNoDomains, state_with Default_Config w, @nil Event)
  /\ Domains (W:=W) Default_Config = []
  /\ SSLEmail (W:=W) Default_Config = ""
  /\ Default_with (W:=W) [] "" = Default_Config
  /\ (forall d ds,
        CheckConfig Default (state_with (Default_with (d :: ds) "") w)
        = Some (Some errNoMail, state_with (Default_with (d :: ds) "") w,
                @nil Event))
  /\ (forall d ds a email, exists evs : list Event,
        CheckConfig Default
          (state_with (Default_with (d :: ds) (String a email)) w)
        = Some (None, state_with (Default_with (d :: ds) (String a email)) w,
                evs)).
Proof.
  unfold CheckConfig, bind, deref, state_with, Default. simpl.
  repeat split; intros; rewrite lookup_singleton_eq; try reflexivity.
  eexists. reflexivity.
Qed.

(** ** Init *)

Variable env : Env.

(** C6: when [CheckConfig] rejects the configuration, [Init] returns that
    error and nothing else happens: no event (no directory made, no file
    opened or written, no call to the ACME client) and the state,
    the world included, is the one [Init] started from. *)
Theorem C6_Init_rejected_config_no_io (cfg : ptr) (cleanup : option (W -> W))
    (s s1 : State) (e : error) (evs1 : list Event) :
  CheckConfig cfg s = Some (Some e, s1, evs1) ->
  Init env cfg cleanup s = Some ((None, Some e), s, []).
Proof.
  intros Hrun.
  destruct (CheckConfig_inv _ _ _ _ _ Hrun) as (l & k & -> & _ & -> & _ & Hnil).
  rewrite Hnil in Hrun by discriminate.
  unfold Init, bind. rewrite Hrun. reflexivity.
Qed.


(** ** Runs whose calls have known answers *)

Lemma wp_result {A} (m : M A) (s : State) (x : A * State * list Event) :
  wp m s (fun a s' evs => (a, s', evs) = x) -> m s = Some x.
Proof.
  unfold wp. destruct (m s) as [[[a s'] evs]|]; [intros ->; reflexivity | tauto].
Qed.

(** One step of a run that keeps what the environment answered: a call
    whose answer a hypothesis gives takes that answer, any other call
    leaves its equation among the hypotheses. *)
Ltac wp_step_env :=
  cbv beta iota;
  lazymatch goal with
  | |- wp (extern _ _) _ _ =>
      apply wp_extern; intros ? ?;
      cbn [heap glob_c glob_local world with_world];
      first
        [match goal with
         | H : ?call = (_, _) |- ?call = _ -> _ =>
             rewrite H; intros [= <- <-]
         end
        |match goal with
         | |- (_, _) = _ -> _ => intros [= <- <-]
         end
        |intros ?];
      cbn [heap glob_c glob_local world with_world]
  | |- wp (if ?x then _ else _) _ _ =>
      match goal with
      | H : x = true |- _ => rewrite H
      | H : x = false |- _ => rewrite H
      | _ => wp_step
      end
  | |- wp (when _ _) _ _ => unfold when
  | |- wp (match ?x with _ => _ end) _ _ =>
      match goal with
      | H : x = _ |- _ => rewrite H
      | _ => wp_step
      end
  | _ => wp_step
  end.

(** ** loadStoredCert *)

(** C2 (amended): when the record of the cached certificate has been read
    and decoded and the renewal check on it fails: with a failure hook
    configured, [loadStoredCert] runs the hook once, with the error of
    the check, starts the renewal routine and returns exactly what
    [NewCertReloader] returned for the cached files, the reloader when
    that call succeeded and nil with its error when it did not; with no
    hook, it returns an error and no reloader, runs no hook and starts
    no renewal routine. *)
Theorem C2_loadStoredCert_renewal_failure (certFilePath keyFilePath : string)
    (logFile : File) (cleanup : option (W -> W)) (s : State) (l : loc)
    (k : Config) (data : list Byte.byte) (cr : CR) (reloader : Result)
    (errRenew : error) (w1 w2 w3 : W) :
  glob_c s = Some l ->
  heap s !! l = Some k ->
  os_ReadFile env (filepath_Join env (CacheDir k) certResourceFileName) (world s)
  = (inl data, w1) ->
  sonnet_Unmarshal env data = inl cr ->
  NewCertReloader env k certFilePath keyFilePath logFile cleanup w1
  = (reloader, w2) ->
  renew env k (getACMECertResource env cr) w2 = (Some errRenew, w3) ->
  let cert := getACMECertResource env cr in
  let checked :=
    [EvLog [LStr "[INFO] simplecert: found cert in cacheDir"];
     EvReadFile (filepath_Join env (CacheDir k) certResourceFileName) (inl data);
     EvUnmarshal data (inl cr);
     EvNewCertReloader certFilePath keyFilePath logFile reloader;
     EvRenew cert (Some errRenew)] in
  match FailedToRenewCertificate k with
  | Some handler =>
      loadStoredCert env certFilePath keyFilePath logFile cleanup s
      = Some (reloader, with_world (handler errRenew w3) s,
              (checked ++ [EvFailedToRenewCertificate errRenew;
                           EvGoRenewalRoutine cert])%list) /\
      hook_calls (checked ++ [EvFailedToRenewCertificate errRenew;
                              EvGoRenewalRoutine cert]) = [errRenew] /\
      forall rl, reloader = (Some rl, None) ->
        exists s' evs,
          loadStoredCert env certFilePath keyFilePath logFile cleanup s
          = Some ((Some rl, None), s', evs)
  | None =>
      loadStoredCert env certFilePath keyFilePath logFile cleanup s
      = Some ((None, Some (errors_New
                ("simplecert: failed to renew cached cert on startup and no failedToRenewCert handler is configured: "
                 ++ Error errRenew))),
              with_world w3 s, checked) /\
      hook_calls checked = []
  end.
Proof.
  intros Hc Hk Hread Hdecode Hreloader Hrenew cert checked.
  assert (forall x,
            wp (loadStoredCert env certFilePath keyFilePath logFile cleanup) s
               (fun a s' evs => (a, s', evs) = x) ->
            loadStoredCert env certFilePath keyFilePath logFile cleanup s
            = Some x) as Hrun by (intros x; apply wp_result).
  destruct s as [h c lcl w]. simpl in Hc, Hk, Hread. subst c.
  destruct (FailedToRenewCertificate k) as [handler|] eqn:Hhook.
  - assert (loadStoredCert env certFilePath keyFilePath logFile cleanup
              (mkState h (Some l) lcl w)
            = Some (reloader, with_world (handler errRenew w3)
                                (mkState h (Some l) lcl w),
                    (checked ++ [EvFailedToRenewCertificate errRenew;
                                 EvGoRenewalRoutine cert])%list)) as Heq.
    { apply Hrun. unfold loadStoredCert. repeat wp_step_env. reflexivity. }
    split; [exact Heq|]. split; [reflexivity|].
    intros rl ->. eexists _, _. exact Heq.
  - split; [|reflexivity].
    apply Hrun. unfold loadStoredCert. repeat wp_step_env. reflexivity.
Qed.
(** ** Init *)

Lemma hook_calls_app (evs1 evs2 : list Event) :
  hook_calls (evs1 ++ evs2) = (hook_calls evs1 ++ hook_calls evs2)%list.
Proof. apply omap_app. Qed.

Lemma hook_calls_warnings (evs : list Event) :
  Forall is_warning evs -> hook_calls evs = [].
Proof.
  induction 1 as [|ev evs [msg ->] _ IH]; [reflexivity|]. exact IH.
Qed.

(** The part of [Init] that all proofs about it share: validation, then
    the run of the rest from a state that differs from the first one in
    [c] only. *)
Ltac init_start Hk cevs Hw :=
  apply wp_run;
  let r := fresh "r" in
  let Hcc := fresh "Hcc" in
  let Hrej := fresh "Hrej" in
  destruct (CheckConfig_run _ _ _ Hk) as (r & cevs & Hcc & Hw & Hrej & _);
  match goal with
  | |- wp _ ?s _ => destruct s as [? ? ? ?]; simpl in Hk
  end;
  unfold Init; apply wp_bind; unfold wp at 1; rewrite Hcc; clear Hcc;
  destruct r as [?|];
  [apply wp_ret; rewrite Hrej by congruence; clear Hrej
  |clear Hrej; unfold Init_local, Init_obtainNewCert, loadStoredCert;
   repeat wp_step].

Ltac in_tail := apply in_or_app; right; simpl; eauto 30.

(** C5: when [Init] finds no certificate cached and the call to the ACME
    client fails, it returns an error, made from the client's, and no
    reloader. *)
Theorem C5_Init_initial_obtain_failure_is_fatal (l : loc) (k : Config)
    (cleanup : option (W -> W)) (s : State) :
  heap s !! l = Some k ->
  exists r s' evs,
    Init env (Some l) cleanup s = Some (r, s', evs) /\
    forall dir request e,
      In (EvCertCached dir false) evs ->
      In (EvObtain request (inr e)) evs ->
      r = (None, Some (errors_New
            ("simplecert: failed to obtain cert: " ++ Error e))).
Proof.
  intros Hk. init_start Hk cevs Hw.
  1: { intros dir0 request0 err0 Hc. contradiction. }
  all: intros dir0 request0 err0 Hc Ho; in_run Hw Hc; in_run Hw Ho.
  all: congruence.
Qed.



(** C4 (amended): when a certificate is cached and the requested domains
    differ from the cached ones, [Init] does not take the branch that
    loads the cached certificate and makes no renewal check on it first.
    Outside local mode the next calls are, in this order and with
    nothing in between, [getUser], then if it succeeds [createClient]
    for the configured DNS servers, then if it succeeds the ACME client
    for exactly the requested domains; a failure of [getUser] or of
    [createClient] ends [Init] with that error. After a successful ACME
    call the cached certificate is neither loaded nor checked; it is
    loaded only as the fall back after the ACME call has failed. In
    local mode the next calls are [createLocalCert] for the files of
    the "local" subdirectory, [updateHosts] if [UpdateHosts] is set, and
    [NewCertReloader] for those files, whose result [Init] returns. *)
Theorem C4_Init_drift_forces_acquisition (l : loc) (k : Config)
    (cleanup : option (W -> W)) (s : State) (cevs : list Event)
    (logFile : File) (w2 w3 w4 : W) :
  let opened :=
    [EvEnsureCacheDirExists (CacheDir k);
     EvOpenFile (filepath_Join env (CacheDir k) logFileName)
       [O_WRONLY; O_CREATE; O_APPEND] 493 (inl logFile);
     EvLogSetOutput logFile] in
  heap s !! l = Some k ->
  CheckConfig (Some l) s = Some (None, s, cevs) ->
  os_OpenFile env (filepath_Join env (CacheDir k) logFileName)
    [O_WRONLY; O_CREATE; O_APPEND] 493
    (ensureCacheDirExists env k (CacheDir k) (world s)) = (inl logFile, w2) ->
  (Local k = false ->
   let dir := CacheDir k in
   let certFilePath := filepath_Join env dir certFileName in
   let keyFilePath := filepath_Join env dir keyFileName in
   let request := mkObtainRequest (Domains k) true in
   let drift :=
     (cevs ++ opened ++
      [EvCertCached dir true;
       EvDomainsChanged certFilePath keyFilePath true;
       EvLog [LStr "[INFO] domains have changed. Obtaining a new certificate..."]])%list in
   certCached env k dir w2 = (true, w3) ->
   domainsChanged env k certFilePath keyFilePath w3 = (true, w4) ->
   exists r s' evs,
     Init env (Some l) cleanup s = Some (r, s', evs) /\
     exists ures w5,
       getUser env k w4 = (ures, w5) /\
       match ures with
       | inr e =>
           r = (None, Some (errors_New
                 ("simplecert: failed to get ACME user: " ++ Error e))) /\
           evs = (drift ++ [EvGetUser (inr e)])%list
       | inl u =>
           exists cres w6,
             createClient env k u (DNSServers k) w5 = (cres, w6) /\
             match cres with
             | inr e =>
                 r = (None, Some (errors_New
                       ("simplecert: failed to create lego.Client: " ++ Error e))) /\
                 evs = (drift ++ [EvGetUser (inl u);
                                  EvCreateClient u (DNSServers k) (inr e)])%list
             | inl client =>
                 exists ores w7 rest,
                   Certificate_Obtain env client request w6 = (ores, w7) /\
                   evs = (drift ++ [EvGetUser (inl u);
                                    EvCreateClient u (DNSServers k) (inl client);
                                    EvObtain request ores] ++ rest)%list /\
                   match ores with
                   | inl cert =>
                       ~ loads_stored_cert rest /\
                       forall cert' res, ~ In (EvRenew cert' res) rest
                   | inr e => loads_stored_cert rest
                   end
             end
       end) /\
  (Local k = true ->
   let k' := set_CacheDir (filepath_Join env (CacheDir k) "local") k in
   let dir := CacheDir k' in
   let certFilePath := filepath_Join env dir certFileName in
   let keyFilePath := filepath_Join env dir keyFileName in
   let hosts := fun w => if UpdateHosts k then updateHosts env k' w else w in
   certCached env k' dir (ensureCacheDirExists env k' dir w2) = (true, w3) ->
   domainsChanged env k' certFilePath keyFilePath w3 = (true, w4) ->
   forall reloader w7,
     NewCertReloader env k' certFilePath keyFilePath logFile cleanup
       (hosts (createLocalCert env k' certFilePath keyFilePath w4))
     = (reloader, w7) ->
     Init env (Some l) cleanup s
     = Some (reloader,
             mkState (<[l := k']> (heap s)) (Some l) true w7,
             (cevs ++ opened ++
              [EvEnsureCacheDirExists dir;
               EvCertCached dir true;
               EvDomainsChanged certFilePath keyFilePath true;
               EvLog [LStr "[INFO] cert cached but domains have changed. generating a new one..."];
               EvCreateLocalCert certFilePath keyFilePath] ++
              (if UpdateHosts k then [EvUpdateHosts] else []) ++
              [EvNewCertReloader certFilePath keyFilePath logFile reloader])%list)).
Proof.
  intros opened Hk Hcc Hopen. destruct s as [h c lcl w]. simpl in Hk, Hopen.
  split.
  - intros Hlocal dir certFilePath keyFilePath request drift Hcached Hchanged.
    subst opened dir certFilePath keyFilePath request drift.
    apply wp_run. unfold Init. apply wp_bind. unfold wp at 1. rewrite Hcc.
    unfold Init_obtainNewCert, loadStoredCert.
    repeat wp_step_env.
    all: repeat first
      [eexists _, _, _; split; [eassumption|]; cbv beta iota
      |eexists _, _; split; [eassumption|]; cbv beta iota].
    all: split;
      [first [reflexivity | rewrite <- !app_assoc; simpl; reflexivity]|].
    all: first
      [rewrite <- !app_assoc; simpl; reflexivity
      |eexists _, _; simpl; eauto 20
      |split;
       [intros [name [res Hin]]; simpl in Hin; intuition discriminate
       |intros cert' res Hin; simpl in Hin; intuition discriminate]].
  - intros Hlocal k' dir certFilePath keyFilePath hosts Hcached Hchanged
      reloader w7 Hreloader.
    subst opened k' dir certFilePath keyFilePath hosts.
    cbv beta in Hreloader.
    assert (UpdateHosts
              (set_CacheDir (filepath_Join env (CacheDir k) "local") k)
            = UpdateHosts k) as Hhosts by reflexivity.
    apply wp_result. unfold Init. apply wp_bind. unfold wp at 1. rewrite Hcc.
    unfold Init_local.
    destruct (UpdateHosts k); cbv iota in Hreloader;
      repeat wp_step_env; unfold with_world; simpl;
      rewrite <- ?app_assoc; reflexivity.
Qed.

(** C7 (amended): once validation has succeeded, [Init] publishes the
    caller's [Config] through the package-level pointer [c], which from
    then on aliases it. In local mode, once the log file is open, [Init]
    sets [local] and overwrites [CacheDir] in the caller's [Config] with
    the path of its "local" subdirectory; it writes no other field, and
    outside local mode, or when the log file cannot be opened, it leaves
    the [Config] as it was. *)
Theorem C7_Init_publishes_config_and_moves_local_cache_dir (l : loc)
    (k : Config) (cleanup : option (W -> W)) (s s1 : State)
    (evs1 : list Event) :
  heap s !! l = Some k ->
  CheckConfig (Some l) s = Some (None, s1, evs1) ->
  exists r s' evs,
    Init env (Some l) cleanup s = Some (r, s', evs) /\
    glob_c s' = Some l /\
    (Local k = false -> heap s' = heap s) /\
    (forall name flag perm e,
        In (EvOpenFile name flag perm (inr e)) evs -> heap s' = heap s) /\
    (Local k = true ->
     forall name flag perm f,
       In (EvOpenFile name flag perm (inl f)) evs ->
       glob_local s' = true /\
       heap s' = <[l := set_CacheDir (filepath_Join env (CacheDir k) "local") k]>
                   (heap s)).
Proof.
  intros Hk Hval.
  destruct (CheckConfig_inv _ _ _ _ _ Hval) as (? & ? & _ & _ & -> & Hw & _).
  apply wp_run. destruct s as [h c lcl w]. simpl in Hk.
  unfold Init. apply wp_bind. unfold wp at 1. rewrite Hval. clear Hval.
  unfold Init_local, Init_obtainNewCert, loadStoredCert.
  repeat wp_step.
  all: split; [reflexivity|].
  all: split; [intros; first [reflexivity | congruence]|].
  all: split; [intros ? ? ? ? Ho; in_run Hw Ho; reflexivity|].
  all: intros Hlocal ? ? ? ? Ho; in_run Hw Ho.
  all: first [split; reflexivity | congruence].
Qed.

(** * Further properties of the start-up path *)

Lemma calls_app (p : Event -> bool) (evs1 evs2 : list Event) :
  calls p (evs1 ++ evs2) = (calls p evs1 ++ calls p evs2)%list.
Proof. apply List.filter_app. Qed.

Lemma calls_warnings (p : Event -> bool) (evs : list Event) :
  (forall args, p (EvLog args) = false) ->
  Forall is_warning evs -> calls p evs = [].
Proof.
  intros Hp. induction 1 as [|ev evs [msg ->] _ IH]; [reflexivity|].
  unfold calls in *. simpl. rewrite Hp. exact IH.
Qed.

(** The calls [p] selects in a run of [Init] are among the events after
    the warnings of [CheckConfig]. *)
Ltac calls_run Hw :=
  rewrite calls_app, (calls_warnings _ _ (fun _ => eq_refl) Hw); simpl.

(** ** CheckConfig *)

Lemma length_eqb_0 {A} (xs : list A) :
  Nat.eqb (length xs) 0%nat = true <-> xs = [].
Proof. destruct xs; simpl; split; intros; congruence. Qed.

(** The tests of [CheckConfig] as propositions. *)
Ltac reflect_tests :=
  repeat match goal with
  | H : String.eqb _ _ = true |- _ => apply String.eqb_eq in H
  | H : String.eqb _ _ = false |- _ => apply String.eqb_neq in H
  | H : Z.eqb _ _ = true |- _ => apply Z.eqb_eq in H
  | H : Z.eqb _ _ = false |- _ => apply Z.eqb_neq in H
  | H : Nat.eqb (length _) 0%nat = true |- _ => apply length_eqb_0 in H
  | H : Nat.eqb (length _) 0%nat = false |- _ =>
      apply not_true_iff_false in H; rewrite length_eqb_0 in H
  | H : andb _ _ = true |- _ => apply andb_true_iff in H; destruct H
  | H : andb _ _ = false |- _ => apply andb_false_iff in H; destruct H
  | H : orb _ _ = true |- _ => apply orb_true_iff in H; destruct H
  | H : orb _ _ = false |- _ => apply orb_false_iff in H; destruct H
  | H : negb (map_index _ _) = true |- _ =>
      apply negb_true_iff, not_true_iff_false in H
  | H : negb (map_index _ _) = false |- _ => apply negb_false_iff in H
  | H : negb _ = true |- _ => apply negb_true_iff in H
  | H : negb _ = false |- _ =>
      apply negb_false_iff in H; try apply not_false_iff_true in H
  | H : is_nil ?o = true |- _ => destruct o; [discriminate H | clear H]
  | H : is_nil ?o = false |- _ => destruct o; [clear H | discriminate H]
  end.

(** [CheckConfig] run on a [Config], with one case for each way through
    its tests and the tests of that way as hypotheses. *)
Ltac run_CheckConfig Hk s :=
  unfold CheckConfig, bind, deref, when; rewrite Hk; destruct s as [? ? ? ?];
  repeat match goal with
  | |- context [if ?b then _ else _] => destruct b eqn:?
  end; simpl.

Lemma spec_first_violation_None_iff (k : Config) :
  spec_first_violation k = None <-> acceptable k.
Proof.
  unfold spec_first_violation, acceptable.
  rewrite <- supportedKeyTypes_spec.
  pose proof (supportedKeyTypes_index (KeyType k)) as Hidx.
  destruct (String.eqb_spec (CacheDir k) "");
    [split; [discriminate | tauto]|].
  destruct (Domains k) as [|d ds]; simpl;
    [split; [discriminate | tauto]|].
  destruct (Local k); simpl;
    [|destruct (String.eqb_spec (SSLEmail k) "");
      [split; [discriminate | tauto]|]].
  all: destruct (String.eqb_spec (DirectoryURL k) "");
    [split; [discriminate | tauto]|].
  all: destruct (String.eqb_spec (DNSProvider k) ""); simpl;
    [destruct (String.eqb_spec (HTTPAddress k) ""); simpl;
     [destruct (String.eqb_spec (TLSAddress k) ""); simpl;
      [split; [discriminate | tauto]|]|]|].
  all: destruct (Z.eqb_spec (RenewBefore k) 0);
    [split; [discriminate | tauto]|].
  all: destruct (Z.eqb_spec (CheckInterval k) 0);
    [split; [discriminate | tauto]|].
  all: destruct (Z.eqb_spec (CacheDirPerm k) 0);
    [split; [discriminate | tauto]|].
  all: destruct (map_index supportedKeyTypes (KeyType k)); simpl.
  all: split; intros Hyp; try discriminate Hyp; try reflexivity.
  all: try (repeat split; try assumption; try discriminate; tauto).
  all: destruct Hyp as (_ & _ & _ & _ & _ & _ & _ & _ & Hkt);
    apply Hidx in Hkt; discriminate Hkt.
Qed.

(** X1: [CheckConfig] accepts a configuration exactly when the nine
    conditions hold, and then leaves the state as it was. *)
Theorem CheckConfig_accepts_iff (l : loc) (k : Config) (s : State) :
  heap s !! l = Some k ->
  exists r (evs : list Event),
    CheckConfig (Some l) s = Some (r, s, evs) /\
    (r = None <-> acceptable k).
Proof.
  intros Hk.
  destruct (CheckConfig_run l k s Hk) as (r & evs & Hrun & _ & _ & Hspec & Hrb).
  exists r, evs. split; [exact Hrun|].
  rewrite <- spec_first_violation_None_iff.
  destruct (spec_first_violation k) as [e|] eqn:Hv.
  - destruct e; try (rewrite Hspec by discriminate; reflexivity).
    rewrite (Hrb eq_refl). split; discriminate.
  - rewrite Hspec by discriminate. reflexivity.
Qed.

(** X2: [CheckConfig] never returns [errNoRenewBefore], whatever the
    configuration; a configuration whose renew-before window is zero is
    still rejected, under another error. *)
Theorem CheckConfig_never_errNoRenewBefore (l : loc) (k : Config) (s : State) :
  heap s !! l = Some k ->
  exists r (evs : list Event),
    CheckConfig (Some l) s = Some (r, s, evs) /\
    r <> Some errNoRenewBefore /\
    (RenewBefore k = 0 -> r <> None).
Proof.
  intros Hk.
  destruct (CheckConfig_run l k s Hk) as (r & evs & Hrun & _ & _ & Hspec & Hrb).
  exists r, evs. split; [exact Hrun|].
  destruct (spec_first_violation k) as [e|] eqn:Hv.
  - assert (r <> None) as Hsome.
    { destruct e; try (rewrite Hspec by discriminate; discriminate).
      rewrite (Hrb eq_refl). discriminate. }
    split; [|intros _; exact Hsome].
    destruct e; try (rewrite Hspec by discriminate; discriminate).
    rewrite (Hrb eq_refl). discriminate.
  - rewrite Hspec by discriminate. split; [discriminate|].
    intros Hzero. apply spec_first_violation_None_iff in Hv.
    destruct Hv as (_ & _ & _ & _ & _ & Hnz & _). contradiction.
Qed.

Lemma spec_first_violation_errNoMail_iff (k : Config) :
  spec_first_violation k = Some errNoMail <->
  CacheDir k <> "" /\ Domains k <> [] /\ Local k = false /\ SSLEmail k = "".
Proof.
  unfold spec_first_violation.
  destruct (String.eqb_spec (CacheDir k) "");
    [split; [discriminate | tauto]|].
  destruct (Domains k) as [|d ds]; simpl;
    [split; [discriminate | tauto]|].
  destruct (Local k); simpl;
    [|destruct (String.eqb_spec (SSLEmail k) "");
      [split; [repeat split|]; first [assumption | discriminate | reflexivity]|]].
  all: repeat match goal with
       | |- context [if ?b then _ else _] => destruct b
       end.
  all: split; [discriminate | intros (_ & _ & Hl & He); congruence].
Qed.

(** X3: [CheckConfig] asks for a contact address only outside local mode:
    it returns [errNoMail] exactly when the cache directory and the
    domains are set, local mode is off and the address is empty. *)
Theorem CheckConfig_errNoMail_iff (l : loc) (k : Config) (s : State) :
  heap s !! l = Some k ->
  exists r (evs : list Event),
    CheckConfig (Some l) s = Some (r, s, evs) /\
    (r = Some errNoMail <->
     CacheDir k <> "" /\ Domains k <> [] /\ Local k = false /\ SSLEmail k = "").
Proof.
  intros Hk.
  destruct (CheckConfig_run l k s Hk) as (r & evs & Hrun & _ & _ & Hspec & Hrb).
  exists r, evs. split; [exact Hrun|].
  rewrite <- spec_first_violation_errNoMail_iff.
  destruct (spec_first_violation k) as [e|] eqn:Hv.
  - destruct e; try (rewrite Hspec by discriminate; reflexivity).
    rewrite (Hrb eq_refl). split; discriminate.
  - rewrite Hspec by discriminate. reflexivity.
Qed.

(** X4: on a configuration it accepts, [CheckConfig] logs nothing exactly
    when the failure hook is set and either the two other hooks are set
    too or no HTTP or TLS challenge address is configured. *)
Theorem CheckConfig_silent_iff (l : loc) (k : Config) (s : State) :
  heap s !! l = Some k ->
  acceptable k ->
  exists evs : list Event,
    CheckConfig (Some l) s = Some (None, s, evs) /\
    (evs = [] <->
     FailedToRenewCertificate k <> None /\
     ((WillRenewCertificate k <> None /\ DidRenewCertificate k <> None) \/
      (HTTPAddress k = "" /\ TLSAddress k = ""))).
Proof.
  intros Hk Hacc.
  assert (earlier_checks_pass k) as Hpass
    by (unfold acceptable in Hacc; unfold earlier_checks_pass; tauto).
  destruct (earlier_checks_pass_bools k Hpass)
    as (H1 & H2 & H3 & H4 & H5 & H6 & H7 & H8).
  assert (map_index supportedKeyTypes (KeyType k) = true) as H9
    by (apply supportedKeyTypes_index; unfold acceptable in Hacc; tauto).
  clear Hacc Hpass.
  unfold CheckConfig, bind, deref, when.
  rewrite Hk, H1, H2, H3, H4, H5, H6, H7, H8, H9.
  clear H1 H2 H3 H4 H5 H6 H7 H8 H9. destruct s as [h c lcl w].
  destruct (WillRenewCertificate k), (DidRenewCertificate k),
    (FailedToRenewCertificate k),
    (String.eqb_spec (HTTPAddress k) ""), (String.eqb_spec (TLSAddress k) "");
    simpl; eexists; (split; [reflexivity|]).
  all: split;
    [try discriminate; intros _
    |try reflexivity; intros [Hf Hrest]; exfalso].
  all: try (split; [discriminate|]).
  all: try solve [left; split; discriminate | right; split; assumption].
  all: try solve [contradiction Hf; reflexivity].
  all: destruct Hrest as [[Hw Hd]|[Hh Ht]]; congruence.
Qed.

(** ** Init *)

(** A step of a run that takes a branch already decided by a
    hypothesis. *)
Ltac wp_step_known :=
  lazymatch goal with
  | |- wp (if ?x then _ else _) _ _ =>
      match goal with
      | H : x = true |- _ => rewrite H
      | H : x = false |- _ => rewrite H
      | _ => wp_step
      end
  | _ => wp_step
  end.

Ltac init_known Hk cevs Hw :=
  apply wp_run;
  let r := fresh "r" in
  let Hcc := fresh "Hcc" in
  let Hrej := fresh "Hrej" in
  destruct (CheckConfig_run _ _ _ Hk) as (r & cevs & Hcc & Hw & Hrej & _);
  match goal with
  | |- wp _ ?s _ => destruct s as [? ? ? ?]; simpl in Hk
  end;
  unfold Init; apply wp_bind; unfold wp at 1; rewrite Hcc; clear Hcc;
  destruct r as [?|];
  [apply wp_ret; try (rewrite Hrej by congruence); clear Hrej
  |clear Hrej; unfold Init_local, Init_obtainNewCert, loadStoredCert;
   repeat wp_step_known].

(** X5: when the log file cannot be opened, [Init] returns an error made
    from the one of [os.OpenFile] and goes no further: the configuration
    is already published through [c] and the cache directory has been
    asked for, but nothing else was called and the [Config] is as it
    was. *)
Theorem Init_logfile_failure_stops (l : loc) (k : Config)
    (cleanup : option (W -> W)) (s : State) :
  heap s !! l = Some k ->
  exists r s' evs,
    Init env (Some l) cleanup s = Some (r, s', evs) /\
    forall name flag perm e,
      In (EvOpenFile name flag perm (inr e)) evs ->
      r = (None, Some (errors_New
            ("simplecert: failed to create logfile: " ++ Error e))) /\
      calls is_not_log evs
      = [EvEnsureCacheDirExists (CacheDir k);
         EvOpenFile (filepath_Join env (CacheDir k) logFileName)
           [O_WRONLY; O_CREATE; O_APPEND] 493 (inr e)] /\
      glob_c s' = Some l /\ heap s' = heap s.
Proof.
  intros Hk. init_start Hk cevs Hw.
  1: { intros name0 flag0 perm0 err0 Ho. contradiction. }
  all: intros name0 flag0 perm0 err0 Ho; in_run Hw Ho.
  injection Ho as _ _ _ <-. calls_run Hw. repeat split.
Qed.

(** X6: in local mode [Init] stays off the ACME path: it calls neither
    [getUser], [createClient], the ACME client nor [saveCertToDisk], reads
    no certificate record, makes no renewal check and starts no renewal
    routine; once the log file is open, what it returns is what
    [NewCertReloader] returned for the two files of the "local"
    subdirectory. *)
Theorem Init_local_mode_stays_off_acme (l : loc) (k : Config)
    (cleanup : option (W -> W)) (s : State) :
  heap s !! l = Some k ->
  Local k = true ->
  exists r s' evs,
    Init env (Some l) cleanup s = Some (r, s', evs) /\
    calls is_acquisition evs = [] /\
    calls is_renewal_machinery evs = [] /\
    forall name flag perm logFile,
      In (EvOpenFile name flag perm (inl logFile)) evs ->
      calls is_NewCertReloader evs
      = [EvNewCertReloader
           (filepath_Join env (filepath_Join env (CacheDir k) "local") certFileName)
           (filepath_Join env (filepath_Join env (CacheDir k) "local") keyFileName)
           logFile r].
Proof.
  intros Hk Hlocal. init_known Hk cevs Hw.
  1: { repeat split. intros name0 flag0 perm0 f0 Ho. contradiction. }
  all: split; [calls_run Hw; reflexivity|].
  all: split; [calls_run Hw; reflexivity|].
  all: intros name0 flag0 perm0 f0 Ho; in_run Hw Ho.
  all: injection Ho as _ _ _ <-; calls_run Hw; reflexivity.
Qed.

(** X7: in local mode the self-signed certificate is made at most once
    per start-up, and only when needed: when nothing is cached or the
    cached certificate is for other domains, [createLocalCert] is called
    once, for the two files of the "local" subdirectory; when the cached
    certificate is for the requested domains, it is not called. *)
Theorem Init_local_mode_reuses_cached_cert (l : loc) (k : Config)
    (cleanup : option (W -> W)) (s : State) :
  heap s !! l = Some k ->
  Local k = true ->
  exists r s' evs,
    Init env (Some l) cleanup s = Some (r, s', evs) /\
    let made :=
      [EvCreateLocalCert
         (filepath_Join env (filepath_Join env (CacheDir k) "local") certFileName)
         (filepath_Join env (filepath_Join env (CacheDir k) "local") keyFileName)]
    in
    (forall dir, In (EvCertCached dir false) evs ->
                 calls is_createLocalCert evs = made) /\
    (forall cp kp, In (EvDomainsChanged cp kp true) evs ->
                   calls is_createLocalCert evs = made) /\
    (forall cp kp, In (EvDomainsChanged cp kp false) evs ->
                   calls is_createLocalCert evs = []).
Proof.
  intros Hk Hlocal. init_known Hk cevs Hw.
  1: { repeat split; intros; contradiction. }
  all: cbv zeta; repeat split.
  all: intros; match goal with Hin : In _ _ |- _ => in_run Hw Hin end.
  all: calls_run Hw; reflexivity.
Qed.

(** X8: the helpers of local mode are used in local mode only. Outside
    local mode [Init] calls neither [createLocalCert] nor [updateHosts],
    whatever [UpdateHosts] says; in local mode, once the log file is
    open, [updateHosts] is called once if [UpdateHosts] is set and not at
    all otherwise. *)
Theorem Init_updateHosts_only_in_local_mode (l : loc) (k : Config)
    (cleanup : option (W -> W)) (s : State) :
  heap s !! l = Some k ->
  exists r s' evs,
    Init env (Some l) cleanup s = Some (r, s', evs) /\
    (Local k = false ->
     calls is_createLocalCert evs = [] /\ calls is_updateHosts evs = []) /\
    (Local k = true ->
     forall name flag perm logFile,
       In (EvOpenFile name flag perm (inl logFile)) evs ->
       calls is_updateHosts evs
       = if UpdateHosts k then [EvUpdateHosts] else []).
Proof.
  intros Hk. init_start Hk cevs Hw.
  1: { split; [intros _; split; reflexivity|].
       intros _ name0 flag0 perm0 f0 Ho. contradiction. }
  all: split;
    [intros Hl; first [congruence | split; calls_run Hw; reflexivity]
    |intros Hl; first [congruence | idtac]].
  all: intros name0 flag0 perm0 f0 Ho; in_run Hw Ho.
  all: match goal with
       | H : UpdateHosts (set_CacheDir _ _) = _ |- _ =>
           simpl in H; rewrite H
       end.
  all: calls_run Hw; reflexivity.
Qed.

(** X9: a failure of [getUser] or of [createClient] ends [Init] with an
    error, also when the cached certificate is for other domains: unlike
    a failure of the ACME call itself, it is not followed by a fall back
    on the cached certificate. The ACME client is not called, no record
    is read, no reloader is built and no renewal routine is started. *)
Theorem Init_client_setup_failure_has_no_fallback (l : loc) (k : Config)
    (cleanup : option (W -> W)) (s : State) :
  heap s !! l = Some k ->
  exists r s' evs,
    Init env (Some l) cleanup s = Some (r, s', evs) /\
    (forall e,
        In (EvGetUser (inr e)) evs ->
        r = (None, Some (errors_New
              ("simplecert: failed to get ACME user: " ++ Error e))) /\
        calls is_Obtain evs = [] /\ calls is_renewal_machinery evs = [] /\
        calls is_NewCertReloader evs = []) /\
    (forall u dns e,
        In (EvCreateClient u dns (inr e)) evs ->
        r = (None, Some (errors_New
              ("simplecert: failed to create lego.Client: " ++ Error e))) /\
        calls is_Obtain evs = [] /\ calls is_renewal_machinery evs = [] /\
        calls is_NewCertReloader evs = []).
Proof.
  intros Hk. init_start Hk cevs Hw.
  1: { split; intros; contradiction. }
  all: split;
    [intros ? Hin; in_run Hw Hin; injection Hin as <-
    |intros ? ? ? Hin; in_run Hw Hin; injection Hin as _ _ <-].
  all: repeat split; calls_run Hw; reflexivity.
Qed.

(** X10: when the new certificate cannot be written to disk, [Init]
    returns an error made from the one of [saveCertToDisk]; it starts no
    renewal routine and builds no reloader. *)
Theorem Init_save_failure_is_fatal (l : loc) (k : Config)
    (cleanup : option (W -> W)) (s : State) :
  heap s !! l = Some k ->
  exists r s' evs,
    Init env (Some l) cleanup s = Some (r, s', evs) /\
    forall cert dir e,
      In (EvSaveCertToDisk cert dir (Some e)) evs ->
      r = (None, Some (errors_New
            ("simplecert: failed to write cert to disk: " ++ Error e))) /\
      dir = CacheDir k /\
      calls is_go_renewalRoutine evs = [] /\
      calls is_NewCertReloader evs = [].
Proof.
  intros Hk. init_start Hk cevs Hw.
  1: { intros; contradiction. }
  all: intros ? ? ? Hin; in_run Hw Hin.
  all: injection Hin as _ <- <-.
  all: repeat split; calls_run Hw; reflexivity.
Qed.

(** X11: [Init] calls the ACME client at most once, without retry, and
    only with a client it got from [createClient] for the configured DNS
    servers; the request is for the configured domains, bundled. *)
Theorem Init_obtains_at_most_once (l : loc) (k : Config)
    (cleanup : option (W -> W)) (s : State) :
  heap s !! l = Some k ->
  exists r s' evs,
    Init env (Some l) cleanup s = Some (r, s', evs) /\
    (length (calls is_Obtain evs) <= 1)%nat /\
    forall request res,
      In (EvObtain request res) evs ->
      request = mkObtainRequest (Domains k) true /\
      exists u client, In (EvCreateClient u (DNSServers k) (inl client)) evs.
Proof.
  intros Hk. init_start Hk cevs Hw.
  1: { split; [simpl; lia | intros; contradiction]. }
  all: split; [calls_run Hw; lia|].
  all: intros ? ? Hin; in_run Hw Hin.
  all: injection Hin as <- _.
  all: split; [reflexivity | eexists _, _; in_tail].
Qed.

(** X12: a start-up builds at most one reloader and starts at most one
    renewal routine, and [Init] returns either an error without a
    reloader or exactly what the one call of [NewCertReloader]
    returned. *)
Theorem Init_builds_at_most_one_reloader (l : loc) (k : Config)
    (cleanup : option (W -> W)) (s : State) :
  heap s !! l = Some k ->
  exists r s' evs,
    Init env (Some l) cleanup s = Some (r, s', evs) /\
    (length (calls is_NewCertReloader evs) <= 1)%nat /\
    (length (calls is_go_renewalRoutine evs) <= 1)%nat /\
    ((exists e, r = (None, Some e)) \/
     (exists certFilePath keyFilePath logFile,
         In (EvNewCertReloader certFilePath keyFilePath logFile r) evs)).
Proof.
  intros Hk. init_start Hk cevs Hw.
  1: { repeat split; simpl; try lia. left. eexists. reflexivity. }
  all: split; [calls_run Hw; lia|].
  all: split; [calls_run Hw; lia|].
  all: first [left; eexists; reflexivity | right; eexists _, _, _; in_tail].
Qed.

(** X13: every reloader is built for the files [cert.pem] and [key.pem]
    of the cache directory the [Config] names when [Init] returns: the
    configured directory outside local mode, its "local" subdirectory in
    local mode. The log file it is handed is the one opened in the
    configured directory, in both modes. *)
Theorem Init_reloader_files_follow_CacheDir (l : loc) (k : Config)
    (cleanup : option (W -> W)) (s : State) :
  heap s !! l = Some k ->
  exists r s' evs,
    Init env (Some l) cleanup s = Some (r, s', evs) /\
    forall certFilePath keyFilePath logFile res,
      In (EvNewCertReloader certFilePath keyFilePath logFile res) evs ->
      (exists k',
          heap s' !! l = Some k' /\
          certFilePath = filepath_Join env (CacheDir k') certFileName /\
          keyFilePath = filepath_Join env (CacheDir k') keyFileName) /\
      In (EvOpenFile (filepath_Join env (CacheDir k) logFileName)
            [O_WRONLY; O_CREATE; O_APPEND] 493 (inl logFile)) evs.
Proof.
  intros Hk. init_start Hk cevs Hw.
  1: { intros; contradiction. }
  all: intros ? ? ? ? Hin; in_run Hw Hin.
  all: injection Hin as <- <- <- _.
  all: split; [eexists; split; [wp_side|]; split; reflexivity | in_tail].
Qed.

(** X14: [Init] runs the failure hook at most once, and only with the
    error of a failed renewal check on a cached certificate; a start-up
    that found nothing cached never runs it, whatever fails. *)
Theorem Init_failure_hook_only_for_renewal (l : loc) (k : Config)
    (cleanup : option (W -> W)) (s : State) :
  heap s !! l = Some k ->
  exists r s' evs,
    Init env (Some l) cleanup s = Some (r, s', evs) /\
    (length (hook_calls evs) <= 1)%nat /\
    (forall e, In e (hook_calls evs) ->
               exists cert, In (EvRenew cert (Some e)) evs) /\
    (forall dir, In (EvCertCached dir false) evs -> hook_calls evs = []).
Proof.
  intros Hk. init_start Hk cevs Hw.
  1: { repeat split; simpl; try lia; intros; contradiction. }
  all: rewrite hook_calls_app, (hook_calls_warnings _ Hw); simpl.
  all: split; [lia|].
  all: split;
    [intros ? Hin; simpl in Hin;
     first [contradiction | destruct Hin as [<-|[]]; eexists; in_tail]
    |intros ? Hin; in_run Hw Hin; reflexivity].
Qed.

(** ** loadStoredCert *)

(** X15: [loadStoredCert] builds the reloader before it makes the renewal
    check: in every run that reaches the check, the call of
    [NewCertReloader] for the two files is the event right before the
    call of [renew], and the certificate checked is the one decoded from
    the record. *)
Theorem loadStoredCert_builds_reloader_before_renew
    (certFilePath keyFilePath : string) (logFile : File)
    (cleanup : option (W -> W)) (s : State) (l : loc) (k : Config) :
  glob_c s = Some l ->
  heap s !! l = Some k ->
  exists r s' evs,
    loadStoredCert env certFilePath keyFilePath logFile cleanup s
    = Some (r, s', evs) /\
    forall cert res,
      In (EvRenew cert res) evs ->
      exists data cr reloader rest,
        evs = EvLog [LStr "[INFO] simplecert: found cert in cacheDir"]
              :: EvReadFile
                   (filepath_Join env (CacheDir k) certResourceFileName)
                   (inl data)
              :: EvUnmarshal data (inl cr)
              :: EvNewCertReloader certFilePath keyFilePath logFile reloader
              :: EvRenew cert res :: rest /\
        cert = getACMECertResource env cr.
Proof.
  intros Hc Hk. apply wp_run. destruct s as [h c lcl w]. simpl in Hc, Hk.
  subst c. unfold loadStoredCert. repeat wp_step.
  all: intros cert0 res0 Hin; simpl in Hin.
  all: repeat (destruct Hin as [Hin|Hin]; [try discriminate Hin|]);
       try contradiction.
  all: injection Hin as <- <-.
  all: eexists _, _, _, _; split; reflexivity.
Qed.

(** X16: when the record of the cached certificate cannot be read, or
    cannot be decoded, [loadStoredCert] returns an error made from that
    failure and stops there: it builds no reloader, makes no renewal
    check, runs no hook and starts no renewal routine. The bytes decoded
    are the bytes read. *)
Theorem loadStoredCert_record_failure_stops
    (certFilePath keyFilePath : string) (logFile : File)
    (cleanup : option (W -> W)) (s : State) (l : loc) (k : Config) :
  glob_c s = Some l ->
  heap s !! l = Some k ->
  exists r s' evs,
    loadStoredCert env certFilePath keyFilePath logFile cleanup s
    = Some (r, s', evs) /\
    (forall name e,
        In (EvReadFile name (inr e)) evs ->
        r = (None, Some (errors_New
              ("simplecert: failed to read CertResource.json from disk: "
               ++ Error e))) /\
        evs = [EvLog [LStr "[INFO] simplecert: found cert in cacheDir"];
               EvReadFile (filepath_Join env (CacheDir k) certResourceFileName)
                 (inr e)]) /\
    (forall data e,
        In (EvUnmarshal data (inr e)) evs ->
        r = (None, Some (errors_New
              ("simplecert: failed to unmarshal certificate resource: "
               ++ Error e))) /\
        evs = [EvLog [LStr "[INFO] simplecert: found cert in cacheDir"];
               EvReadFile (filepath_Join env (CacheDir k) certResourceFileName)
                 (inl data);
               EvUnmarshal data (inr e)]).
Proof.
  intros Hc Hk. apply wp_run. destruct s as [h c lcl w]. simpl in Hc, Hk.
  subst c. unfold loadStoredCert. repeat wp_step.
  all: split; intros ? ? Hin; simpl in Hin.
  all: repeat (destruct Hin as [Hin|Hin]; [try discriminate Hin|]);
       try contradiction.
  all: injection Hin as Hfst <-; try subst; split; reflexivity.
Qed.

(** ** Init and the package-level state *)

(** X17: [Init] writes to no [Config] but the one it is given, and it
    never clears the package-level flag [local]: outside local mode the
    flag keeps the value it had, so it stays set after an earlier
    start-up in local mode. *)
Theorem Init_frame_and_local_flag (l : loc) (k : Config)
    (cleanup : option (W -> W)) (s : State) :
  heap s !! l = Some k ->
  exists r s' evs,
    Init env (Some l) cleanup s = Some (r, s', evs) /\
    (forall l', l' <> l -> heap s' !! l' = heap s !! l') /\
    (glob_local s = true -> glob_local s' = true) /\
    (Local k = false -> glob_local s' = glob_local s).
Proof.
  intros Hk. init_known Hk cevs Hw.
  all: split;
    [intros l' Hne; first [reflexivity | apply lookup_insert_ne; congruence]|].
  all: split; [intros Hset; first [exact Hset | reflexivity]|].
  all: intros Hl; first [reflexivity | congruence].
Qed.

(** What a start-up that got its log file open has done to the [Config]:
    nothing outside local mode, the move of [CacheDir] in local mode; the
    log file is the one of the directory configured at the start. *)
Lemma Init_Config_effect (l : loc) (k : Config)
    (cleanup : option (W -> W)) (s : State) :
  heap s !! l = Some k ->
  exists r s' evs,
    Init env (Some l) cleanup s = Some (r, s', evs) /\
    exists k',
      heap s' !! l = Some k' /\
      forall name flag perm logFile,
        In (EvOpenFile name flag perm (inl logFile)) evs ->
        name = filepath_Join env (CacheDir k) logFileName /\
        k' = if Local k
             then set_CacheDir (filepath_Join env (CacheDir k) "local") k
             else k.
Proof.
  intros Hk. init_start Hk cevs Hw.
  all: eexists; split; [wp_side|].
  1: { intros; contradiction. }
  all: intros ? ? ? ? Hin; in_run Hw Hin.
  all: injection Hin as <- _ _ _.
  all: split; [reflexivity|].
  all: reflexivity.
Qed.

(** X18: two start-ups in local mode on the same [Config] do not come
    back to the same cache directory: the second one opens its log file
    in the "local" subdirectory the first one left in [CacheDir], and
    leaves [CacheDir] one "local" deeper. *)
Theorem Init_twice_in_local_mode_nests_CacheDir (l : loc) (k : Config)
    (cleanup1 cleanup2 : option (W -> W)) (s : State) :
  heap s !! l = Some k ->
  Local k = true ->
  exists r1 s1 evs1 r2 s2 evs2,
    Init env (Some l) cleanup1 s = Some (r1, s1, evs1) /\
    Init env (Some l) cleanup2 s1 = Some (r2, s2, evs2) /\
    forall name1 flag1 perm1 logFile1 name2 flag2 perm2 logFile2,
      In (EvOpenFile name1 flag1 perm1 (inl logFile1)) evs1 ->
      In (EvOpenFile name2 flag2 perm2 (inl logFile2)) evs2 ->
      name1 = filepath_Join env (CacheDir k) logFileName /\
      name2 = filepath_Join env (filepath_Join env (CacheDir k) "local")
                logFileName /\
      CacheDir <$> heap s2 !! l
      = Some (filepath_Join env (filepath_Join env (CacheDir k) "local")
                "local").
Proof.
  intros Hk Hlocal.
  destruct (Init_Config_effect l k cleanup1 s Hk)
    as (r1 & s1 & evs1 & Hrun1 & k1 & Hk1 & Heff1).
  destruct (Init_Config_effect l k1 cleanup2 s1 Hk1)
    as (r2 & s2 & evs2 & Hrun2 & k2 & Hk2 & Heff2).
  exists r1, s1, evs1, r2, s2, evs2.
  split; [exact Hrun1|]. split; [exact Hrun2|].
  intros name1 flag1 perm1 logFile1 name2 flag2 perm2 logFile2 Ho1 Ho2.
  destruct (Heff1 _ _ _ _ Ho1) as [-> Hk1'].
  destruct (Heff2 _ _ _ _ Ho2) as [-> Hk2'].
  rewrite Hlocal in Hk1'. subst k1. simpl in Hk2'. rewrite Hlocal in Hk2'.
  subst k2. rewrite Hk2. repeat split.
Qed.

(** ** Init: the cached certificate and the new one *)

(** X19: outside local mode, when the cached certificate is for the
    requested domains, [Init] does not go near the acquisition path: it
    calls none of [getUser], [createClient], the ACME client and
    [saveCertToDisk], and returns what [loadStoredCert] returns for the
    two cached files. *)
Theorem Init_unchanged_cache_is_loaded (l : loc) (k : Config)
    (cleanup : option (W -> W)) (s : State) :
  heap s !! l = Some k ->
  Local k = false ->
  exists r s' evs,
    Init env (Some l) cleanup s = Some (r, s', evs) /\
    forall certFilePath keyFilePath,
      In (EvDomainsChanged certFilePath keyFilePath false) evs ->
      certFilePath = filepath_Join env (CacheDir k) certFileName /\
      keyFilePath = filepath_Join env (CacheDir k) keyFileName /\
      calls is_acquisition evs = [] /\
      loads_stored_cert evs /\
      load_outcome k certFilePath keyFilePath r evs.
Proof.
  intros Hk Hlocal. init_known Hk cevs Hw.
  1: { intros; contradiction. }
  all: intros ? ? Hin; in_run Hw Hin.
  all: injection Hin as <- <-.
  all: do 2 (split; [reflexivity|]).
  all: split; [calls_run Hw; reflexivity|].
  all: (split; [eexists _, _; in_tail|]); unfold load_outcome.
  - do 3 right. eexists _, _. split; [in_tail|]. split; [in_tail|].
    right. eexists. split; [in_tail|]. split; [congruence|].
    rewrite hook_calls_app, (hook_calls_warnings _ Hw). reflexivity.
  - do 2 right. left. eexists _, _. split; [in_tail|].
    split; [assumption | reflexivity].
  - do 3 right. eexists _, _. split; [in_tail|]. split; [in_tail|].
    left. in_tail.
  - right. left. eexists _, _. split; [in_tail | reflexivity].
  - left. eexists _, _. split; [in_tail | reflexivity].
Qed.

(** X20: when the new certificate has been written, the start-up ends in
    this order: the certificate the ACME client returned is written to
    the configured cache directory, then the renewal routine is started
    for that certificate, then the reloader is built from the files just
    written, and what [NewCertReloader] returns is what [Init] returns. *)
Theorem Init_issuance_ends_with_reloader (l : loc) (k : Config)
    (cleanup : option (W -> W)) (s : State) :
  heap s !! l = Some k ->
  exists r s' evs,
    Init env (Some l) cleanup s = Some (r, s', evs) /\
    forall cert dir,
      In (EvSaveCertToDisk cert dir None) evs ->
      (exists request, In (EvObtain request (inl cert)) evs) /\
      exists logFile,
        [EvSaveCertToDisk cert (CacheDir k) None;
         EvLog [LStr "[INFO] simplecert: wrote new cert to disk!"];
         EvGoRenewalRoutine cert;
         EvNewCertReloader (filepath_Join env (CacheDir k) certFileName)
           (filepath_Join env (CacheDir k) keyFileName) logFile r]
        `suffix_of` evs.
Proof.
  intros Hk. init_start Hk cevs Hw.
  1: { intros; contradiction. }
  all: intros ? ? Hin; in_run Hw Hin.
  all: injection Hin as <- _.
  all: split; [eexists; in_tail|].
  all: eexists; apply suffix_app_r; simpl.
  all: repeat first [reflexivity | apply suffix_cons_r].
Qed.

(** X21: the cache is looked up in one directory per start-up, the one
    the certificate files are then taken from: the configured cache
    directory outside local mode and its "local" subdirectory in local
    mode, so that local mode leaves the certificate of production alone.
    The domains of the cached certificate are compared only when a
    certificate is cached there. *)
Theorem Init_cache_lookup_directory (l : loc) (k : Config)
    (cleanup : option (W -> W)) (s : State) :
  heap s !! l = Some k ->
  exists r s' evs,
    Init env (Some l) cleanup s = Some (r, s', evs) /\
    let dir := if Local k then filepath_Join env (CacheDir k) "local"
               else CacheDir k in
    (forall dir' res, In (EvCertCached dir' res) evs -> dir' = dir) /\
    (forall certFilePath keyFilePath res,
        In (EvDomainsChanged certFilePath keyFilePath res) evs ->
        certFilePath = filepath_Join env dir certFileName /\
        keyFilePath = filepath_Join env dir keyFileName /\
        In (EvCertCached dir true) evs) /\
    (forall certFilePath keyFilePath,
        In (EvCreateLocalCert certFilePath keyFilePath) evs ->
        certFilePath = filepath_Join env dir certFileName /\
        keyFilePath = filepath_Join env dir keyFileName).
Proof.
  intros Hk. init_start Hk cevs Hw.
  1: { repeat split; intros; contradiction. }
  all: cbv zeta; split; [intros ? ? Hin; in_run Hw Hin|].
  all: try (injection Hin as <- _; reflexivity).
  all: split;
    [intros ? ? ? Hin; in_run Hw Hin; injection Hin as <- <- _
    |intros ? ? Hin; in_run Hw Hin; injection Hin as <- <-].
  all: repeat split; in_tail.
Qed.

End Properties.

(** ** The theorems at work on the deterministic environment *)

Lemma C8_witness :
  earlier_checks_pass (Fake.config false None) /\
  exists r (evs : list (Event Fake.File Fake.CertReloader Fake.User
                          Fake.Client Fake.Resource Fake.CR)),
    CheckConfig (Some 0%nat) (Fake.start (Fake.config false None) Fake.drift_acme_up)
    = Some (r, Fake.start (Fake.config false None) Fake.drift_acme_up, evs) /\
    (r = Some errUnsupportedKeyType <->
     ~ (RSA2048 = EC256 \/ RSA2048 = EC384 \/ RSA2048 = RSA2048 \/
        RSA2048 = RSA4096 \/ RSA2048 = RSA8192)).
Proof.
  assert (earlier_checks_pass (Fake.config false None)) as Hpass.
  { unfold earlier_checks_pass. simpl.
    repeat split; try discriminate. intros (_ & Hno & _). discriminate Hno. }
  split; [exact Hpass|].
  apply (C8_CheckConfig_unsupported_key_type_iff 0%nat (Fake.config false None)
           (Fake.start (Fake.config false None) Fake.drift_acme_up));
    [reflexivity | exact Hpass].
Defined.

Lemma C9_witness :
  spec_first_violation (Fake.config false None) = None /\
  exists evs : list (Event Fake.File Fake.CertReloader Fake.User
                       Fake.Client Fake.Resource Fake.CR),
    CheckConfig (Some 0%nat) (Fake.start (Fake.config false None) Fake.drift_acme_up)
    = Some (None, Fake.start (Fake.config false None) Fake.drift_acme_up, evs) /\
    Forall is_warning evs /\
    In (EvLog [LStr "[WARNING] no FailedToRenewCertificate handler specified! Simplecert will fatal on errors!"]) evs.
Proof.
  split; [reflexivity|].
  destruct (C9_CheckConfig_missing_hooks_only_warn (File:=Fake.File)
              (CertReloader:=Fake.CertReloader) (User:=Fake.User)
              (Client:=Fake.Client) (Resource:=Fake.Resource) (CR:=Fake.CR)
              0%nat (Fake.config false None)
              (Fake.start (Fake.config false None) Fake.drift_acme_up)
              eq_refl eq_refl) as (evs & Hrun & Hw & Hin).
  exists evs. repeat split; [exact Hrun | exact Hw | exact (Hin eq_refl)].
Defined.

Lemma C6_witness :
  CheckConfig Default (state_with Default_Config Fake.empty_cache_acme_down)
  = Some (Some errNoDomains, state_with Default_Config Fake.empty_cache_acme_down,
          @nil (Event Fake.File Fake.CertReloader Fake.User Fake.Client
                  Fake.Resource Fake.CR)) /\
  Init Fake.env Default None (state_with Default_Config Fake.empty_cache_acme_down)
  = Some ((None, Some errNoDomains),
          state_with Default_Config Fake.empty_cache_acme_down, []).
Proof.
  assert (CheckConfig Default (state_with Default_Config Fake.empty_cache_acme_down)
          = Some (Some errNoDomains,
                  state_with Default_Config Fake.empty_cache_acme_down,
                  @nil (Event Fake.File Fake.CertReloader Fake.User Fake.Client
                          Fake.Resource Fake.CR))) as Hrej by reflexivity.
  split; [exact Hrej|].
  exact (C6_Init_rejected_config_no_io Fake.env _ None _ _ _ _ Hrej).
Defined.

Lemma C2_witness :
  (exists s' (evs : Fake.Events),
      loadStoredCert Fake.env "letsencrypt/cert.pem" "letsencrypt/key.pem"
        "letsencrypt/simplecert.log" None
        (Fake.running (Fake.config false (Some Fake.count_hook))
           Fake.cached_expiring_acme_down)
      = Some ((Some ("letsencrypt/cert.pem", "letsencrypt/key.pem"), None),
              s', evs) /\
      hook_calls evs = [Fake.acme_down] /\
      Fake.hook_runs (world s') = 1%nat) /\
  (exists s' (evs : Fake.Events),
      loadStoredCert Fake.env "letsencrypt/cert.pem" "letsencrypt/key.pem"
        "letsencrypt/simplecert.log" None
        (Fake.running (Fake.config false None) Fake.cached_expiring_acme_down)
      = Some ((None, Some (errors_New
                "simplecert: failed to renew cached cert on startup and no failedToRenewCert handler is configured: acme: connection refused")),
              s', evs) /\
      hook_calls evs = []).
Proof.
  split.
  - pose proof (C2_loadStoredCert_renewal_failure Fake.env
                  "letsencrypt/cert.pem" "letsencrypt/key.pem"
                  "letsencrypt/simplecert.log" None
                  (Fake.running (Fake.config false (Some Fake.count_hook))
                     Fake.cached_expiring_acme_down)
                  0%nat (Fake.config false (Some Fake.count_hook))
                  [] ["a.com"]
                  (Some ("letsencrypt/cert.pem", "letsencrypt/key.pem"), None)
                  Fake.acme_down Fake.cached_expiring_acme_down
                  Fake.cached_expiring_acme_down Fake.cached_expiring_acme_down
                  eq_refl eq_refl eq_refl eq_refl eq_refl eq_refl) as Hspec.
    cbv zeta in Hspec. simpl in Hspec. destruct Hspec as (Hrun & Hcalls & _).
    eexists _, _. split; [exact Hrun|]. split; reflexivity.
  - pose proof (C2_loadStoredCert_renewal_failure Fake.env
                  "letsencrypt/cert.pem" "letsencrypt/key.pem"
                  "letsencrypt/simplecert.log" None
                  (Fake.running (Fake.config false None)
                     Fake.cached_expiring_acme_down)
                  0%nat (Fake.config false None)
                  [] ["a.com"]
                  (Some ("letsencrypt/cert.pem", "letsencrypt/key.pem"), None)
                  Fake.acme_down Fake.cached_expiring_acme_down
                  Fake.cached_expiring_acme_down Fake.cached_expiring_acme_down
                  eq_refl eq_refl eq_refl eq_refl eq_refl eq_refl) as Hspec.
    cbv zeta in Hspec. simpl in Hspec. destruct Hspec as (Hrun & Hcalls).
    eexists _, _. split; [exact Hrun | reflexivity].
Defined.

Lemma C5_witness :
  exists r s' (evs : Fake.Events),
    Fake.run_Init (Fake.config false None) Fake.empty_cache_acme_down
    = Some (r, s', evs) /\
    In (EvCertCached "letsencrypt" false) evs /\
    In (EvObtain (mkObtainRequest ["a.com"; "b.com"] true) (inr Fake.acme_down)) evs /\
    r = (None, Some (errors_New
          "simplecert: failed to obtain cert: acme: connection refused")).
Proof.
  destruct (C5_Init_initial_obtain_failure_is_fatal Fake.env 0%nat
              (Fake.config false None) None
              (Fake.start (Fake.config false None) Fake.empty_cache_acme_down)
              eq_refl) as (r & s' & evs & Hrun & Hspec).
  assert (In (EvCertCached "letsencrypt" false) evs) as Hcached
    by (vm_compute in Hrun; injection Hrun as _ _ <-; simpl; tauto).
  assert (In (EvObtain (mkObtainRequest ["a.com"; "b.com"] true)
                (inr Fake.acme_down)) evs) as Hobtain
    by (vm_compute in Hrun; injection Hrun as _ _ <-; simpl; tauto).
  exists r, s', evs.
  repeat split; [exact Hrun | exact Hcached | exact Hobtain |].
  exact (Hspec _ _ _ Hcached Hobtain).
Defined.


Lemma C4_witness :
  (exists r s' (evs rest : Fake.Events) pre,
      Fake.run_Init (Fake.config false None) Fake.drift_acme_up
      = Some (r, s', evs) /\
      evs = (pre ++
             [EvGetUser (inl "admin@a.com");
              EvCreateClient "admin@a.com" [] (inl []);
              EvObtain (mkObtainRequest ["a.com"; "b.com"] true)
                (inl ["a.com"; "b.com"])] ++ rest)%list /\
      ~ loads_stored_cert rest /\ ~ loads_stored_cert pre) /\
  (exists s' (evs : Fake.Events),
      Fake.run_Init (Fake.config true None) Fake.drift_acme_up
      = Some ((Some ("letsencrypt/local/cert.pem", "letsencrypt/local/key.pem"),
               None), s', evs) /\
      In (EvCreateLocalCert "letsencrypt/local/cert.pem"
            "letsencrypt/local/key.pem") evs).
Proof.
  split.
  - assert (exists cevs : Fake.Events,
              CheckConfig (Some 0%nat)
                (Fake.start (Fake.config false None) Fake.drift_acme_up)
              = Some (None, Fake.start (Fake.config false None) Fake.drift_acme_up,
                      cevs) /\ Forall is_warning cevs) as (cevs & Hval & Hw).
    { eexists. split; [reflexivity|].
      repeat constructor; eexists; reflexivity. }
    destruct (C4_Init_drift_forces_acquisition Fake.env 0%nat
                (Fake.config false None) None
                (Fake.start (Fake.config false None) Fake.drift_acme_up) cevs
                "letsencrypt/simplecert.log" Fake.drift_acme_up
                Fake.drift_acme_up Fake.drift_acme_up eq_refl Hval eq_refl)
      as [Hacme _].
    destruct (Hacme eq_refl eq_refl eq_refl)
      as (r & s' & evs & Hrun & ures & w5 & Huser & Hrest).
    vm_compute in Huser. injection Huser as <- <-.
    cbv beta iota in Hrest. destruct Hrest as (cres & w6 & Hclient & Hrest).
    vm_compute in Hclient. injection Hclient as <- <-.
    cbv beta iota in Hrest.
    destruct Hrest as (ores & w7 & rest & Hobtain & Hevs & Hrest).
    vm_compute in Hobtain. injection Hobtain as <- <-.
    cbv beta iota in Hrest. destruct Hrest as [Hno _].
    eexists r, s', evs, rest, _.
    refine (conj Hrun (conj Hevs (conj Hno _))).
    intros (name & res & Hin). rewrite !in_app_iff in Hin.
    destruct Hin as [Hin|[Hin|Hin]].
    + rewrite Forall_forall in Hw. apply list_elem_of_In, Hw in Hin.
      destruct Hin as [msg Hin]. discriminate Hin.
    + simpl in Hin. intuition discriminate.
    + simpl in Hin. intuition discriminate.
  - assert (exists cevs : Fake.Events,
              CheckConfig (Some 0%nat)
                (Fake.start (Fake.config true None) Fake.drift_acme_up)
              = Some (None, Fake.start (Fake.config true None) Fake.drift_acme_up,
                      cevs)) as [cevs Hval] by (eexists; reflexivity).
    destruct (C4_Init_drift_forces_acquisition Fake.env 0%nat
                (Fake.config true None) None
                (Fake.start (Fake.config true None) Fake.drift_acme_up) cevs
                "letsencrypt/simplecert.log" Fake.drift_acme_up
                Fake.drift_acme_up Fake.drift_acme_up eq_refl Hval eq_refl)
      as [_ Hlocal].
    pose proof (Hlocal eq_refl eq_refl eq_refl
                  (Some ("letsencrypt/local/cert.pem",
                         "letsencrypt/local/key.pem"), None)
                  (Fake.fresh Fake.drift_acme_up) eq_refl) as Hrun.
    eexists _, _. split; [exact Hrun|].
    apply in_or_app. right. simpl. tauto.
Defined.

Lemma C7_witness :
  exists r s' (evs : Fake.Events),
    Fake.run_Init (Fake.config true None) Fake.drift_acme_up
    = Some (r, s', evs) /\
    glob_c s' = Some 0%nat /\
    glob_local s' = true /\
    heap s' = {[0%nat := set_CacheDir "letsencrypt/local" (Fake.config true None)]}.
Proof.
  assert (exists evs1 : Fake.Events,
            CheckConfig (Some 0%nat)
              (Fake.start (Fake.config true None) Fake.drift_acme_up)
            = Some (None, Fake.start (Fake.config true None) Fake.drift_acme_up,
                    evs1)) as [evs1 Hval] by (eexists; reflexivity).
  destruct (C7_Init_publishes_config_and_moves_local_cache_dir Fake.env 0%nat
              (Fake.config true None) None
              (Fake.start (Fake.config true None) Fake.drift_acme_up) _ _
              eq_refl Hval)
    as (r & s' & evs & Hrun & Hc & _ & _ & Hlocal).
  assert (In (EvOpenFile "letsencrypt/simplecert.log"
                [O_WRONLY; O_CREATE; O_APPEND] 493
                (inl "letsencrypt/simplecert.log")) evs) as Hopen
    by (vm_compute in Hrun; injection Hrun as _ _ <-; simpl; tauto).
  destruct (Hlocal eq_refl _ _ _ _ Hopen) as [Hl Hheap].
  exists r, s', evs.
  refine (conj Hrun (conj Hc (conj Hl _))).
  rewrite Hheap. apply insert_singleton_eq.
Defined.

(** ** Where the code departs from the claims *)

(** C2 as stated fails: the cached certificate is due for renewal, the
    ACME server is down, a failure hook is configured and the files of the
    cached certificate cannot be loaded; the hook runs, and what
    [loadStoredCert] returns is the error of [NewCertReloader], without a
    reloader. *)
Lemma C2_counterexample :
  ~ hooked_renewal_failure_returns_reloader Fake.env
      "letsencrypt/cert.pem" "letsencrypt/key.pem" "letsencrypt/simplecert.log"
      None
      (Fake.running (Fake.config false (Some Fake.count_hook))
         Fake.cached_expiring_unloadable).
Proof.
  unfold hooked_renewal_failure_returns_reloader.
  destruct (loadStoredCert Fake.env "letsencrypt/cert.pem" "letsencrypt/key.pem"
              "letsencrypt/simplecert.log" None
              (Fake.running (Fake.config false (Some Fake.count_hook))
                 Fake.cached_expiring_unloadable))
    as [[[r s'] evs]|] eqn:Hrun; [|vm_compute in Hrun; discriminate Hrun].
  intros Hclaim. specialize (Hclaim _ _ _ eq_refl).
  vm_compute in Hrun. injection Hrun as <- <- <-.
  destruct Hclaim as [reloader Hr].
  - exists 0%nat, (Fake.config false (Some Fake.count_hook)), Fake.count_hook.
    repeat split.
  - exists ["a.com"], Fake.acme_down. simpl. tauto.
  - discriminate Hr.
Qed.


(** C4 as stated fails: the cached certificate is for other domains and
    the ACME server is down; [Init] reads the record of the cached
    certificate and serves that certificate. *)
Lemma C4_counterexample :
  ~ drift_never_loads_cache Fake.env (Some 0%nat) None
      (Fake.start (Fake.config false None) Fake.drift_acme_down).
Proof.
  unfold drift_never_loads_cache.
  destruct (Init Fake.env (Some 0%nat) None
              (Fake.start (Fake.config false None) Fake.drift_acme_down))
    as [[[r s'] evs]|] eqn:Hrun; [|vm_compute in Hrun; discriminate Hrun].
  intros Hclaim. specialize (Hclaim _ _ _ eq_refl).
  vm_compute in Hrun. injection Hrun as <- <- <-.
  apply Hclaim.
  - split; [exists "letsencrypt"
           |exists "letsencrypt/cert.pem", "letsencrypt/key.pem"];
      simpl; tauto.
  - exists "letsencrypt/CertResource.json", (inl []). simpl. tauto.
Qed.

(** C7 as stated fails: in local mode [Init] overwrites [CacheDir] in the
    caller's [Config], and in every mode it leaves the package-level [c]
    pointing to that [Config]. *)
Lemma C7_counterexample :
  ~ config_unchanged Fake.env (Some 0%nat) None
      (Fake.start (Fake.config true None) Fake.drift_acme_up) /\
  ~ config_not_published Fake.env (Some 0%nat) None
      (Fake.start (Fake.config false None) Fake.drift_acme_up).
Proof.
  split.
  - unfold config_unchanged.
    destruct (Init Fake.env (Some 0%nat) None
                (Fake.start (Fake.config true None) Fake.drift_acme_up))
      as [[[r s'] evs]|] eqn:Hrun; [|vm_compute in Hrun; discriminate Hrun].
    intros Hclaim. specialize (Hclaim _ _ _ eq_refl).
    assert (CacheDir <$> heap s' !! 0%nat = Some "letsencrypt/local") as Hnew
      by (vm_compute in Hrun; injection Hrun as _ <- _; reflexivity).
    rewrite Hclaim in Hnew. discriminate Hnew.
  - unfold config_not_published.
    destruct (Init Fake.env (Some 0%nat) None
                (Fake.start (Fake.config false None) Fake.drift_acme_up))
      as [[[r s'] evs]|] eqn:Hrun; [|vm_compute in Hrun; discriminate Hrun].
    intros Hclaim. specialize (Hclaim _ _ _ eq_refl).
    vm_compute in Hrun. injection Hrun as _ <- _. discriminate Hclaim.
Qed.

(** ** The further properties at work on the deterministic environment *)

Ltac events_of Hrun :=
  vm_compute in Hrun; injection Hrun as _ _ <-; simpl; tauto.

Lemma X1_witness :
  acceptable (Fake.config false None) /\
  exists r (evs : Fake.Events),
    CheckConfig (Some 0%nat) (Fake.start (Fake.config false None) Fake.cached_valid)
    = Some (r, Fake.start (Fake.config false None) Fake.cached_valid, evs) /\
    r = None.
Proof.
  assert (acceptable (Fake.config false None)) as Hacc.
  { unfold acceptable. simpl.
    repeat split; try discriminate; [intros (_ & Hno & _); discriminate Hno|].
    right. right. left. reflexivity. }
  split; [exact Hacc|].
  destruct (CheckConfig_accepts_iff (File:=Fake.File)
              (CertReloader:=Fake.CertReloader) (User:=Fake.User)
              (Client:=Fake.Client) (Resource:=Fake.Resource) (CR:=Fake.CR)
              0%nat (Fake.config false None)
              (Fake.start (Fake.config false None) Fake.cached_valid) eq_refl)
    as (r & evs & Hrun & Hiff).
  exists r, evs. split; [exact Hrun | exact (proj2 Hiff Hacc)].
Defined.

Lemma X2_witness :
  exists r (evs : Fake.Events),
    CheckConfig (Some 0%nat) (state_with renewBefore_zero_config Fake.cached_valid)
    = Some (r, state_with renewBefore_zero_config Fake.cached_valid, evs) /\
    r <> Some errNoRenewBefore /\ r <> None.
Proof.
  destruct (CheckConfig_never_errNoRenewBefore (File:=Fake.File)
              (CertReloader:=Fake.CertReloader) (User:=Fake.User)
              (Client:=Fake.Client) (Resource:=Fake.Resource) (CR:=Fake.CR)
              0%nat renewBefore_zero_config
              (state_with renewBefore_zero_config Fake.cached_valid) eq_refl)
    as (r & evs & Hrun & Hnever & Hrej).
  exists r, evs. split; [exact Hrun|]. split; [exact Hnever | exact (Hrej eq_refl)].
Defined.

Lemma X3_witness :
  exists r (evs : Fake.Events),
    CheckConfig (Some 0%nat) (state_with (Default_with ["a.com"] "") Fake.cached_valid)
    = Some (r, state_with (Default_with ["a.com"] "") Fake.cached_valid, evs) /\
    r = Some errNoMail.
Proof.
  destruct (CheckConfig_errNoMail_iff (File:=Fake.File)
              (CertReloader:=Fake.CertReloader) (User:=Fake.User)
              (Client:=Fake.Client) (Resource:=Fake.Resource) (CR:=Fake.CR)
              0%nat (Default_with ["a.com"] "")
              (state_with (Default_with ["a.com"] "") Fake.cached_valid) eq_refl)
    as (r & evs & Hrun & Hiff).
  exists r, evs. split; [exact Hrun|]. apply Hiff. simpl.
  repeat split; discriminate.
Defined.

Lemma X4_witness :
  exists evs : Fake.Events,
    CheckConfig (Some 0%nat)
      (Fake.start (Fake.config false (Some Fake.count_hook)) Fake.cached_valid)
    = Some (None,
            Fake.start (Fake.config false (Some Fake.count_hook)) Fake.cached_valid,
            evs) /\
    evs <> [].
Proof.
  assert (acceptable (Fake.config false (Some Fake.count_hook))) as Hacc.
  { unfold acceptable. simpl.
    repeat split; try discriminate; [intros (_ & Hno & _); discriminate Hno|].
    right. right. left. reflexivity. }
  destruct (CheckConfig_silent_iff (File:=Fake.File)
              (CertReloader:=Fake.CertReloader) (User:=Fake.User)
              (Client:=Fake.Client) (Resource:=Fake.Resource) (CR:=Fake.CR)
              0%nat (Fake.config false (Some Fake.count_hook))
              (Fake.start (Fake.config false (Some Fake.count_hook))
                 Fake.cached_valid) eq_refl Hacc)
    as (evs & Hrun & Hiff).
  exists evs. split; [exact Hrun|].
  intros Hsilent. apply Hiff in Hsilent. simpl in Hsilent.
  destruct Hsilent as [_ [[Hw _]|[Hh _]]];
    [apply Hw; reflexivity | discriminate Hh].
Defined.

Lemma X5_witness :
  exists r s' (evs : Fake.Events),
    Fake.run_faulty Fake.only_open_fails (Fake.config false None) Fake.cached_valid
    = Some (r, s', evs) /\
    In (EvOpenFile "letsencrypt/simplecert.log" [O_WRONLY; O_CREATE; O_APPEND]
          493 (inr Fake.io_error)) evs /\
    r = (None, Some (errors_New
          "simplecert: failed to create logfile: permission denied")) /\
    glob_c s' = Some 0%nat.
Proof.
  destruct (Init_logfile_failure_stops (Fake.faulty Fake.only_open_fails) 0%nat
              (Fake.config false None) None
              (Fake.start (Fake.config false None) Fake.cached_valid) eq_refl)
    as (r & s' & evs & Hrun & Hspec).
  assert (In (EvOpenFile "letsencrypt/simplecert.log"
                [O_WRONLY; O_CREATE; O_APPEND] 493 (inr Fake.io_error)) evs)
    as Hin by events_of Hrun.
  destruct (Hspec _ _ _ _ Hin) as (Hr & _ & Hc & _).
  exists r, s', evs. exact (conj Hrun (conj Hin (conj Hr Hc))).
Defined.

Lemma X6_witness :
  exists r s' (evs : Fake.Events),
    Fake.run_Init (Fake.config true None) Fake.drift_acme_up = Some (r, s', evs) /\
    calls is_acquisition evs = [] /\
    calls is_renewal_machinery evs = [] /\
    calls is_NewCertReloader evs
    = [EvNewCertReloader "letsencrypt/local/cert.pem" "letsencrypt/local/key.pem"
         "letsencrypt/simplecert.log" r].
Proof.
  destruct (Init_local_mode_stays_off_acme Fake.env 0%nat
              (Fake.config true None) None
              (Fake.start (Fake.config true None) Fake.drift_acme_up)
              eq_refl eq_refl)
    as (r & s' & evs & Hrun & Hacq & Hren & Hrel).
  assert (In (EvOpenFile "letsencrypt/simplecert.log"
                [O_WRONLY; O_CREATE; O_APPEND] 493
                (inl "letsencrypt/simplecert.log")) evs)
    as Hin by events_of Hrun.
  exists r, s', evs.
  exact (conj Hrun (conj Hacq (conj Hren (Hrel _ _ _ _ Hin)))).
Defined.

Lemma X7_witness :
  exists r s' (evs : Fake.Events),
    Fake.run_Init (Fake.config true None) Fake.cached_valid = Some (r, s', evs) /\
    In (EvDomainsChanged "letsencrypt/local/cert.pem" "letsencrypt/local/key.pem"
          false) evs /\
    calls is_createLocalCert evs = [].
Proof.
  destruct (Init_local_mode_reuses_cached_cert Fake.env 0%nat
              (Fake.config true None) None
              (Fake.start (Fake.config true None) Fake.cached_valid)
              eq_refl eq_refl)
    as (r & s' & evs & Hrun & _ & _ & Hsame).
  assert (In (EvDomainsChanged "letsencrypt/local/cert.pem"
                "letsencrypt/local/key.pem" false) evs)
    as Hin by events_of Hrun.
  exists r, s', evs. exact (conj Hrun (conj Hin (Hsame _ _ Hin))).
Defined.

Lemma X8_witness :
  exists r s' (evs : Fake.Events),
    Fake.run_Init (Fake.config false None) Fake.cached_valid = Some (r, s', evs) /\
    UpdateHosts (Fake.config false None) = true /\
    calls is_createLocalCert evs = [] /\ calls is_updateHosts evs = [].
Proof.
  destruct (Init_updateHosts_only_in_local_mode Fake.env 0%nat
              (Fake.config false None) None
              (Fake.start (Fake.config false None) Fake.cached_valid) eq_refl)
    as (r & s' & evs & Hrun & Hacme & _).
  exists r, s', evs. exact (conj Hrun (conj eq_refl (Hacme eq_refl))).
Defined.

Lemma X9_witness :
  exists r s' (evs : Fake.Events),
    Fake.run_faulty Fake.only_user_fails (Fake.config false None) Fake.drift_acme_up
    = Some (r, s', evs) /\
    cache_drifted evs /\
    In (EvGetUser (inr Fake.io_error)) evs /\
    r = (None, Some (errors_New
          "simplecert: failed to get ACME user: permission denied")) /\
    calls is_renewal_machinery evs = [].
Proof.
  destruct (Init_client_setup_failure_has_no_fallback
              (Fake.faulty Fake.only_user_fails) 0%nat
              (Fake.config false None) None
              (Fake.start (Fake.config false None) Fake.drift_acme_up) eq_refl)
    as (r & s' & evs & Hrun & Huser & _).
  assert (cache_drifted evs) as Hdrift.
  { vm_compute in Hrun. injection Hrun as _ _ <-.
    split; [exists "letsencrypt"
           |exists "letsencrypt/cert.pem", "letsencrypt/key.pem"];
      simpl; tauto. }
  assert (In (EvGetUser (inr Fake.io_error)) evs) as Hin by events_of Hrun.
  destruct (Huser _ Hin) as (Hr & _ & Hren & _).
  exists r, s', evs. exact (conj Hrun (conj Hdrift (conj Hin (conj Hr Hren)))).
Defined.

Lemma X10_witness :
  exists r s' (evs : Fake.Events),
    Fake.run_faulty Fake.only_save_fails (Fake.config false None)
      Fake.empty_cache_acme_up
    = Some (r, s', evs) /\
    In (EvSaveCertToDisk ["a.com"; "b.com"] "letsencrypt" (Some Fake.io_error)) evs /\
    r = (None, Some (errors_New
          "simplecert: failed to write cert to disk: permission denied")) /\
    calls is_go_renewalRoutine evs = [] /\
    calls is_NewCertReloader evs = [].
Proof.
  destruct (Init_save_failure_is_fatal (Fake.faulty Fake.only_save_fails) 0%nat
              (Fake.config false None) None
              (Fake.start (Fake.config false None) Fake.empty_cache_acme_up)
              eq_refl)
    as (r & s' & evs & Hrun & Hspec).
  assert (In (EvSaveCertToDisk ["a.com"; "b.com"] "letsencrypt"
                (Some Fake.io_error)) evs) as Hin by events_of Hrun.
  destruct (Hspec _ _ _ Hin) as (Hr & _ & Hgo & Hrel).
  exists r, s', evs. exact (conj Hrun (conj Hin (conj Hr (conj Hgo Hrel)))).
Defined.

Lemma X11_witness :
  exists r s' (evs : Fake.Events),
    Fake.run_Init (Fake.config false None) Fake.empty_cache_acme_up
    = Some (r, s', evs) /\
    In (EvObtain (mkObtainRequest ["a.com"; "b.com"] true)
          (inl ["a.com"; "b.com"])) evs /\
    (length (calls is_Obtain evs) <= 1)%nat.
Proof.
  destruct (Init_obtains_at_most_once Fake.env 0%nat
              (Fake.config false None) None
              (Fake.start (Fake.config false None) Fake.empty_cache_acme_up)
              eq_refl)
    as (r & s' & evs & Hrun & Honce & _).
  assert (In (EvObtain (mkObtainRequest ["a.com"; "b.com"] true)
                (inl ["a.com"; "b.com"])) evs) as Hin by events_of Hrun.
  exists r, s', evs. exact (conj Hrun (conj Hin Honce)).
Defined.

Lemma X12_witness :
  exists r s' (evs : Fake.Events),
    Fake.run_Init (Fake.config false None) Fake.empty_cache_acme_up
    = Some (r, s', evs) /\
    (length (calls is_NewCertReloader evs) <= 1)%nat /\
    (length (calls is_go_renewalRoutine evs) <= 1)%nat /\
    r = (Some ("letsencrypt/cert.pem", "letsencrypt/key.pem"), None).
Proof.
  destruct (Init_builds_at_most_one_reloader Fake.env 0%nat
              (Fake.config false None) None
              (Fake.start (Fake.config false None) Fake.empty_cache_acme_up)
              eq_refl)
    as (r & s' & evs & Hrun & Hrel & Hgo & _).
  exists r, s', evs. refine (conj Hrun (conj Hrel (conj Hgo _))).
  vm_compute in Hrun. injection Hrun as <- _ _. reflexivity.
Defined.

Lemma X13_witness :
  exists r s' (evs : Fake.Events),
    Fake.run_Init (Fake.config true None) Fake.cached_valid = Some (r, s', evs) /\
    In (EvNewCertReloader "letsencrypt/local/cert.pem" "letsencrypt/local/key.pem"
          "letsencrypt/simplecert.log" r) evs /\
    CacheDir <$> heap s' !! 0%nat = Some "letsencrypt/local" /\
    In (EvOpenFile "letsencrypt/simplecert.log" [O_WRONLY; O_CREATE; O_APPEND]
          493 (inl "letsencrypt/simplecert.log")) evs.
Proof.
  destruct (Init_reloader_files_follow_CacheDir Fake.env 0%nat
              (Fake.config true None) None
              (Fake.start (Fake.config true None) Fake.cached_valid) eq_refl)
    as (r & s' & evs & Hrun & Hspec).
  assert (In (EvNewCertReloader "letsencrypt/local/cert.pem"
                "letsencrypt/local/key.pem" "letsencrypt/simplecert.log" r) evs)
    as Hin by (vm_compute in Hrun; injection Hrun as <- _ <-; simpl; tauto).
  destruct (Hspec _ _ _ _ Hin) as [_ Hopen].
  exists r, s', evs. refine (conj Hrun (conj Hin (conj _ Hopen))).
  vm_compute in Hrun. injection Hrun as _ <- _. reflexivity.
Defined.

Lemma X14_witness :
  exists r s' (evs : Fake.Events),
    Fake.run_Init (Fake.config false (Some Fake.count_hook))
      Fake.cached_expiring_acme_down
    = Some (r, s', evs) /\
    hook_calls evs = [Fake.acme_down] /\
    In (EvRenew ["a.com"] (Some Fake.acme_down)) evs.
Proof.
  destruct (Init_failure_hook_only_for_renewal Fake.env 0%nat
              (Fake.config false (Some Fake.count_hook)) None
              (Fake.start (Fake.config false (Some Fake.count_hook))
                 Fake.cached_expiring_acme_down) eq_refl)
    as (r & s' & evs & Hrun & _ & Honly & _).
  assert (hook_calls evs = [Fake.acme_down]) as Hcalls
    by (vm_compute in Hrun; injection Hrun as _ _ <-; reflexivity).
  destruct (Honly Fake.acme_down) as [cert Hin];
    [rewrite Hcalls; left; reflexivity|].
  exists r, s', evs. refine (conj Hrun (conj Hcalls _)).
  assert (cert = ["a.com"]) as <-; [|exact Hin].
  vm_compute in Hrun. injection Hrun as _ _ <-. simpl in Hin.
  repeat (destruct Hin as [Hin|Hin]; [try discriminate Hin|]);
    [injection Hin as ->; reflexivity | contradiction].
Defined.

Lemma X15_witness :
  exists r s' (evs : Fake.Events),
    loadStoredCert Fake.env "letsencrypt/cert.pem" "letsencrypt/key.pem"
      "letsencrypt/simplecert.log" None
      (Fake.running (Fake.config false None) Fake.cached_valid)
    = Some (r, s', evs) /\
    In (EvRenew ["a.com"] None) evs /\
    exists data cr reloader rest,
      evs = EvLog [LStr "[INFO] simplecert: found cert in cacheDir"]
            :: EvReadFile "letsencrypt/CertResource.json" (inl data)
            :: EvUnmarshal data (inl cr)
            :: EvNewCertReloader "letsencrypt/cert.pem" "letsencrypt/key.pem"
                 "letsencrypt/simplecert.log" reloader
            :: EvRenew ["a.com"] None :: rest.
Proof.
  destruct (loadStoredCert_builds_reloader_before_renew Fake.env
              "letsencrypt/cert.pem" "letsencrypt/key.pem"
              "letsencrypt/simplecert.log" None
              (Fake.running (Fake.config false None) Fake.cached_valid)
              0%nat (Fake.config false None) eq_refl eq_refl)
    as (r & s' & evs & Hrun & Hspec).
  assert (In (EvRenew ["a.com"] None) evs) as Hin by events_of Hrun.
  destruct (Hspec _ _ Hin) as (data & cr & reloader & rest & Hevs & _).
  exists r, s', evs. refine (conj Hrun (conj Hin _)).
  exists data, cr, reloader, rest. exact Hevs.
Defined.

Lemma X16_witness :
  exists r s' (evs : Fake.Events),
    loadStoredCert (Fake.faulty Fake.only_read_fails) "letsencrypt/cert.pem"
      "letsencrypt/key.pem" "letsencrypt/simplecert.log" None
      (Fake.running (Fake.config false None) Fake.cached_valid)
    = Some (r, s', evs) /\
    In (EvReadFile "letsencrypt/CertResource.json" (inr Fake.io_error)) evs /\
    r = (None, Some (errors_New
          "simplecert: failed to read CertResource.json from disk: permission denied")).
Proof.
  destruct (loadStoredCert_record_failure_stops
              (Fake.faulty Fake.only_read_fails)
              "letsencrypt/cert.pem" "letsencrypt/key.pem"
              "letsencrypt/simplecert.log" None
              (Fake.running (Fake.config false None) Fake.cached_valid)
              0%nat (Fake.config false None) eq_refl eq_refl)
    as (r & s' & evs & Hrun & Hread & _).
  assert (In (EvReadFile "letsencrypt/CertResource.json" (inr Fake.io_error)) evs)
    as Hin by events_of Hrun.
  exists r, s', evs. exact (conj Hrun (conj Hin (proj1 (Hread _ _ Hin)))).
Defined.

Lemma X17_witness :
  exists r s' (evs : Fake.Events),
    Init Fake.env (Some 0%nat) None
      (mkState {[0%nat := Fake.config false None]} nil_ptr true Fake.cached_valid)
    = Some (r, s', evs) /\
    glob_local s' = true /\ heap s' !! 1%nat = None.
Proof.
  assert (heap (mkState {[0%nat := Fake.config false None]} nil_ptr true
                  Fake.cached_valid) !! 0%nat
          = Some (Fake.config false None)) as Hk by reflexivity.
  destruct (Init_frame_and_local_flag Fake.env 0%nat
              (Fake.config false None) None _ Hk)
    as (r & s' & evs & Hrun & Hframe & Hkeep & _).
  exists r, s', evs. refine (conj Hrun (conj (Hkeep eq_refl) _)).
  etransitivity; [apply (Hframe 1%nat); discriminate | reflexivity].
Defined.

Lemma X18_witness :
  exists r1 s1 (evs1 : Fake.Events) r2 s2 (evs2 : Fake.Events),
    Init Fake.env (Some 0%nat) None
      (Fake.start (Fake.config true None) Fake.cached_valid)
    = Some (r1, s1, evs1) /\
    Init Fake.env (Some 0%nat) None s1 = Some (r2, s2, evs2) /\
    CacheDir <$> heap s2 !! 0%nat = Some "letsencrypt/local/local" /\
    r2 = (Some ("letsencrypt/local/local/cert.pem",
                "letsencrypt/local/local/key.pem"), None).
Proof.
  destruct (Init_twice_in_local_mode_nests_CacheDir Fake.env 0%nat
              (Fake.config true None) None None
              (Fake.start (Fake.config true None) Fake.cached_valid)
              eq_refl eq_refl)
    as (r1 & s1 & evs1 & r2 & s2 & evs2 & Hrun1 & Hrun2 & Hspec).
  exists r1, s1, evs1, r2, s2, evs2.
  refine (conj Hrun1 (conj Hrun2 _)).
  vm_compute in Hrun1. injection Hrun1 as _ <- <-.
  vm_compute in Hrun2. injection Hrun2 as <- _ <-.
  split; [|reflexivity].
  refine (proj2 (proj2 (Hspec "letsencrypt/simplecert.log"
                          [O_WRONLY; O_CREATE; O_APPEND] 493
                          "letsencrypt/simplecert.log"
                          "letsencrypt/local/simplecert.log"
                          [O_WRONLY; O_CREATE; O_APPEND] 493
                          "letsencrypt/local/simplecert.log" _ _)));
    simpl; tauto.
Defined.

Lemma X19_witness :
  exists r s' (evs : Fake.Events),
    Fake.run_Init (Fake.config false None) Fake.cached_valid = Some (r, s', evs) /\
    In (EvDomainsChanged "letsencrypt/cert.pem" "letsencrypt/key.pem" false) evs /\
    calls is_acquisition evs = [] /\
    load_outcome (Fake.config false None) "letsencrypt/cert.pem"
      "letsencrypt/key.pem" r evs.
Proof.
  destruct (Init_unchanged_cache_is_loaded Fake.env 0%nat
              (Fake.config false None) None
              (Fake.start (Fake.config false None) Fake.cached_valid)
              eq_refl eq_refl)
    as (r & s' & evs & Hrun & Hspec).
  assert (In (EvDomainsChanged "letsencrypt/cert.pem" "letsencrypt/key.pem"
                false) evs) as Hin by events_of Hrun.
  destruct (Hspec _ _ Hin) as (_ & _ & Hacq & _ & Hout).
  exists r, s', evs. exact (conj Hrun (conj Hin (conj Hacq Hout))).
Defined.

Lemma X20_witness :
  exists r s' (evs : Fake.Events),
    Fake.run_Init (Fake.config false None) Fake.empty_cache_acme_up
    = Some (r, s', evs) /\
    In (EvSaveCertToDisk ["a.com"; "b.com"] "letsencrypt" None) evs /\
    exists logFile,
      [EvSaveCertToDisk ["a.com"; "b.com"] "letsencrypt" None;
       EvLog [LStr "[INFO] simplecert: wrote new cert to disk!"];
       EvGoRenewalRoutine ["a.com"; "b.com"];
       EvNewCertReloader "letsencrypt/cert.pem" "letsencrypt/key.pem"
         logFile r] `suffix_of` evs.
Proof.
  destruct (Init_issuance_ends_with_reloader Fake.env 0%nat
              (Fake.config false None) None
              (Fake.start (Fake.config false None) Fake.empty_cache_acme_up)
              eq_refl)
    as (r & s' & evs & Hrun & Hspec).
  assert (In (EvSaveCertToDisk ["a.com"; "b.com"] "letsencrypt" None) evs)
    as Hin by events_of Hrun.
  exists r, s', evs. exact (conj Hrun (conj Hin (proj2 (Hspec _ _ Hin)))).
Defined.

Lemma X21_witness :
  exists r s' (evs : Fake.Events),
    Fake.run_Init (Fake.config true None) Fake.drift_acme_up = Some (r, s', evs) /\
    In (EvCertCached "letsencrypt/local" true) evs /\
    In (EvCreateLocalCert "letsencrypt/local/cert.pem"
          "letsencrypt/local/key.pem") evs.
Proof.
  destruct (Init_cache_lookup_directory Fake.env 0%nat
              (Fake.config true None) None
              (Fake.start (Fake.config true None) Fake.drift_acme_up) eq_refl)
    as (r & s' & evs & Hrun & _ & Hdrift & _).
  assert (In (EvDomainsChanged "letsencrypt/local/cert.pem"
                "letsencrypt/local/key.pem" true) evs) as Hin by events_of Hrun.
  destruct (Hdrift _ _ _ Hin) as (_ & _ & Hcached).
  exists r, s', evs. refine (conj Hrun (conj Hcached _)).
  events_of Hrun.
Defined.
